(** * downloadonce: the watermark command-line scripts

    A shallow embedding of [scripts/embed_watermark.py] and
    [scripts/detect_watermark.py].  Each script is a single [main]: it reads
    [sys.argv[1]], parses it as JSON, calls the image codec (OpenCV) and the
    watermark codec (imwatermark), prints one JSON object and exits.

    The embedding has three layers:
    - [Py]: the Python values that [json.loads] can produce and the builtins
      the scripts apply to them ([x[k]], [dict.get], [str.lower],
      [str.endswith], [bytes.fromhex], [bytes.hex], [*]);
    - [Proc]: a process monad with the standard output, the trace of calls
      into the external libraries, exceptions and [sys.exit];
    - [EmbedWatermark] and [DetectWatermark]: the two [main] functions,
      statement by statement.

    The external libraries are an interface ([Libs]): every theorem holds for
    all implementations of it. *)

From Stdlib Require Import ZArith NArith String Ascii Strings.Byte List Lia.
From Stdlib Require Import DecimalString PrimFloat.
From stdpp Require Import base option list strings gmap.

(* ===================================================================== *)
(** * Python values and builtins *)
(* ===================================================================== *)

Module Py.

(** The values [json.loads] returns: [None], [bool], [int] (unbounded),
    [float] (IEEE binary64), [str], [list] and [dict] with [str] keys.
    A [str] is its sequence of UTF-8 bytes. *)
#[warnings="-register-all"]
Inductive pyval : Type :=
  | PNone
  | PBool (b : bool)
  | PInt (n : Z)
  | PFloat (x : float)
  | PStr (s : string)
  | PList (l : list pyval)
  | PDict (d : gmap string pyval).

(** [bytes] objects. *)
Abbreviation bytes := (list byte).

(** An exception instance: its class name and [str(e)].  Every exception of
    the model is an instance of a subclass of [Exception]; [SystemExit] is
    not an exception of this type, it is an outcome of its own in [Proc]. *)
Record exn : Type := Exn { exc_class : string; exc_str : string }.

Definition type_name (v : pyval) : string :=
  match v with
  | PNone => "NoneType"
  | PBool _ => "bool"
  | PInt _ => "int"
  | PFloat _ => "float"
  | PStr _ => "str"
  | PList _ => "list"
  | PDict _ => "dict"
  end.

(** ** Subscript and [dict.get] with a [str] key *)

(** [v[key]] for a string [key].  The wording of the interpreter's messages
    is that of CPython 3.12. *)
Definition getitem (v : pyval) (key : string) : exn + pyval :=
  match v with
  | PDict d =>
      match d !! key with
      | Some x => inr x
      | None => inl (Exn "KeyError" ("'" +:+ key +:+ "'"))
      end
  | PList _ =>
      inl (Exn "TypeError" "list indices must be integers or slices, not str")
  | PStr _ =>
      inl (Exn "TypeError" "string indices must be integers, not 'str'")
  | _ =>
      inl (Exn "TypeError" ("'" +:+ type_name v +:+ "' object is not subscriptable"))
  end.

(** [v.get(key, dflt)]. *)
Definition get (v : pyval) (key : string) (dflt : pyval) : exn + pyval :=
  match v with
  | PDict d => inr (default dflt (d !! key))
  | _ =>
      inl (Exn "AttributeError"
             ("'" +:+ type_name v +:+ "' object has no attribute 'get'"))
  end.

(** ** [payload_length * 8] *)

Fixpoint repeat_string (n : nat) (s : string) : string :=
  match n with
  | O => EmptyString
  | S n' => s +:+ repeat_string n' s
  end.

Fixpoint repeat_list {A : Type} (n : nat) (l : list A) : list A :=
  match n with
  | O => []
  | S n' => l ++ repeat_list n' l
  end.

(** [v * 8]: integer product on [int] and [bool], float product on [float],
    repetition on [str] and [list], [TypeError] on [None] and [dict]. *)
Definition mul_8 (v : pyval) : exn + pyval :=
  match v with
  | PInt n => inr (PInt (n * 8))
  | PBool b => inr (PInt (Z.b2z b * 8))
  | PFloat x => inr (PFloat (PrimFloat.mul x 8%float))
  | PStr s => inr (PStr (repeat_string 8 s))
  | PList l => inr (PList (repeat_list 8 l))
  | _ =>
      inl (Exn "TypeError"
             ("unsupported operand type(s) for *: '" +:+ type_name v +:+ "' and 'int'"))
  end.

(** ** [str.lower] and [str.endswith] *)

Definition is_upper (c : ascii) : bool :=
  let n := N_of_ascii c in ((65 <=? n) && (n <=? 90))%N.

Definition lower_char (c : ascii) : ascii :=
  if is_upper c then ascii_of_N (N_of_ascii c + 32) else c.

(** [s.lower()].  The letters A to Z are mapped to a to z and every other
    byte is kept.  For the suffix tests of [embed_watermark.py] this agrees
    with Python's Unicode lower-casing: a code point outside ASCII is a
    sequence of bytes above 127 before and after lower-casing, except for
    U+212A and U+0130, which lower-case to [k] and to [i] followed by U+0307,
    and none of the four suffixes contains [k] or ends in [i]. *)
Fixpoint lower (s : string) : string :=
  match s with
  | EmptyString => EmptyString
  | String c r => String (lower_char c) (lower r)
  end.

(** [s.endswith(suffix)]. *)
Fixpoint endswith (s suffix : string) : bool :=
  if String.eqb s suffix then true
  else match s with
       | EmptyString => false
       | String _ r => endswith r suffix
       end.

(** [s.endswith((suffix1, suffix2, ...))]. *)
Definition endswith_any (s : string) (suffixes : list string) : bool :=
  existsb (endswith s) suffixes.

(** [v.lower()] on an arbitrary value: only [str] has the method. *)
Definition method_lower (v : pyval) : exn + string :=
  match v with
  | PStr s => inr (lower s)
  | _ =>
      inl (Exn "AttributeError"
             ("'" +:+ type_name v +:+ "' object has no attribute 'lower'"))
  end.

(** ** [bytes.fromhex] and [bytes.hex] *)

(** CPython's [_PyLong_DigitValue]: the value of a digit in base 36, and 37
    for every other character. *)
Definition digit_value (c : ascii) : N :=
  let n := N_of_ascii c in
  if ((48 <=? n) && (n <=? 57))%N then (n - 48)%N
  else if ((97 <=? n) && (n <=? 122))%N then (n - 87)%N
  else if ((65 <=? n) && (n <=? 90))%N then (n - 55)%N
  else 37%N.

(** [Py_ISSPACE]: space, and tab to carriage return. *)
Definition is_space (c : ascii) : bool :=
  let n := N_of_ascii c in ((n =? 32) || ((9 <=? n) && (n <=? 13)))%N.

(** [(unsigned char)((top << 4) + bot)]. *)
Definition byte_of_nibbles (top bot : N) : byte :=
  byte_of_ascii (ascii_of_N (N.shiftl top 4 + bot)).

(** The loop of [_PyBytes_FromHex] from position [pos]: white space is
    skipped before a pair of digits, never inside one.  [inl i] is the
    position of the offending character (the length of the string when the
    second digit of the last pair is missing). *)
Fixpoint fromhex_from (pos : nat) (s : string) : nat + bytes :=
  match s with
  | EmptyString => inr []
  | String c r =>
      if is_space c then fromhex_from (S pos) r
      else if (16 <=? digit_value c)%N then inl pos
      else match r with
           | EmptyString => inl (S pos)
           | String c' r' =>
               if (16 <=? digit_value c')%N then inl (S pos)
               else match fromhex_from (S (S pos)) r' with
                    | inl i => inl i
                    | inr bs =>
                        inr (byte_of_nibbles (digit_value c) (digit_value c') :: bs)
                    end
           end
  end.

(** The position of the first byte above 127, if any. *)
Fixpoint first_non_ascii (pos : nat) (s : string) : option nat :=
  match s with
  | EmptyString => None
  | String c r =>
      if (128 <=? N_of_ascii c)%N then Some pos else first_non_ascii (S pos) r
  end.

(** [bytes.fromhex(s)] on a [str]: a string that is not ASCII is rejected up
    front, at its first character outside ASCII. *)
Definition fromhex (s : string) : nat + bytes :=
  match first_non_ascii 0 s with
  | Some i => inl i
  | None => fromhex_from 0 s
  end.

Definition decimal (n : nat) : string := NilZero.string_of_uint (Nat.to_uint n).

(** [bytes.fromhex(v)] on an arbitrary value. *)
Definition bytes_fromhex (v : pyval) : exn + bytes :=
  match v with
  | PStr s =>
      match fromhex s with
      | inr bs => inr bs
      | inl i =>
          inl (Exn "ValueError"
                 ("non-hexadecimal number found in fromhex() arg at position "
                    +:+ decimal i))
      end
  | _ =>
      inl (Exn "TypeError"
             ("fromhex() argument must be str, not " +:+ type_name v))
  end.

(** [Py_hexdigits[d]] for [d < 16]. *)
Definition hexdigit (d : N) : ascii :=
  if (d <? 10)%N then ascii_of_N (48 + d) else ascii_of_N (87 + d).

(** [b.hex()]: two lower-case digits per byte, high nibble first. *)
Fixpoint hex (bs : bytes) : string :=
  match bs with
  | [] => EmptyString
  | b :: r =>
      let n := Byte.to_N b in
      String (hexdigit (N.land (N.shiftr n 4) 15))
        (String (hexdigit (N.land n 15)) (hex r))
  end.

(** ** Formatting a value inside an f-string *)

Section Format.
(** [str(v)] for the values whose text depends on the interpreter's float
    printing and on the insertion order of dictionaries. *)
Variable repr_compound : pyval -> string.

(** [f"{v}"], which is [str(v)]: a [str] is inserted as it is. *)
Definition format_value (v : pyval) : string :=
  match v with
  | PStr s => s
  | PNone => "None"
  | PBool true => "True"
  | PBool false => "False"
  | PInt n => NilZero.string_of_int (Z.to_int n)
  | _ => repr_compound v
  end.
End Format.

End Py.

(* ===================================================================== *)
(** * The process: standard output, library calls, exceptions, exit *)
(* ===================================================================== *)

Module Proc.
Import Py.

(** A pixel buffer: rows of pixels of colour samples. *)
Definition image : Type := list (list (list N)).

(** The [cv2.IMWRITE_*] option identifiers the embedder uses. *)
Inductive imwrite_flag : Type :=
  | IMWRITE_JPEG_QUALITY
  | IMWRITE_PNG_COMPRESSION
  | IMWRITE_WEBP_QUALITY.

(** A call into the image codec or the watermark codec, with its arguments. *)
Inductive call : Type :=
  | CallImread (path : pyval)
  | CallSetWatermark (wm_type : string) (content : bytes)
  | CallEncode (img : image) (method : string)
  | CallImwrite (path : pyval) (img : image) (params : list (imwrite_flag * pyval))
  | CallWatermarkDecoder (wm_type : string) (length : pyval)
  | CallDecode (img : image) (method : string).

(** What a run depends on besides [sys.argv]: the JSON parser, the two
    library imports, the image codec, the watermark codec, and the
    interpreter's printing of compound values.  A library call either raises
    an exception ([inl]) or returns ([inr]); [imread] returns [None] for a
    file it cannot read or decode, and [imwrite] returns whether the file was
    written. *)
Record Env : Type := {
  json_loads : string -> exn + pyval;
  import_module : string -> option exn;
  imread : pyval -> exn + option image;
  encode : string -> bytes -> image -> string -> exn + image;
  imwrite : pyval -> image -> list (imwrite_flag * pyval) -> exn + bool;
  decode : string -> pyval -> image -> string -> exn + bytes;
  repr_compound : pyval -> string
}.

(** The observable state of a run: the JSON objects printed so far, one per
    line ([print(json.dumps(obj))] appends [obj]), and the library calls made
    so far, both oldest first. *)
Record world : Type := World { stdout : list pyval; calls : list call }.

(** How a statement ends: normally, by an exception (a subclass of
    [Exception]), or by [SystemExit]. *)
Inductive outcome (A : Type) : Type :=
  | Normal (a : A)
  | Raised (e : exn)
  | SysExit (code : Z).
Arguments Normal {A} a.
Arguments Raised {A} e.
Arguments SysExit {A} code.

Definition M (A : Type) : Type := world -> outcome A * world.

#[global] Instance M_ret : MRet M := fun A a w => (Normal a, w).

#[global] Instance M_bind : MBind M := fun A B k m w =>
  match m w with
  | (Normal a, w') => k a w'
  | (Raised e, w') => (Raised e, w')
  | (SysExit c, w') => (SysExit c, w')
  end.

(** The result of an operation that raises or returns. *)
Definition lift {A : Type} (r : exn + A) : M A := fun w =>
  match r with
  | inl e => (Raised e, w)
  | inr a => (Normal a, w)
  end.

(** [print(json.dumps(obj))]. *)
Definition print_json (obj : pyval) : M unit := fun w =>
  (Normal (), World (stdout w ++ [obj]) (calls w)).

Definition record_call (c : call) : M unit := fun w =>
  (Normal (), World (stdout w) (calls w ++ [c])).

(** [sys.exit(code)]. *)
Definition sys_exit {A : Type} (code : Z) : M A := fun w => (SysExit code, w).

(** [try: body  except Exception as e: handler e].  [SystemExit] is not a
    subclass of [Exception] and passes through. *)
Definition try_except {A : Type} (body : M A) (handler : exn -> M A) : M A :=
  fun w =>
    match body w with
    | (Raised e, w') => handler e w'
    | r => r
    end.

(** [sys.argv[i]]. *)
Definition argv_get (argv : list string) (i : nat) : M string :=
  match argv !! i with
  | Some a => mret a
  | None => lift (inl (Exn "IndexError" "list index out of range"))
  end.

(** [import name]. *)
Definition import (E : Env) (name : string) : M unit :=
  match import_module E name with
  | Some e => lift (inl e)
  | None => mret ()
  end.

(** How the process ends: with an exit code, or with an exception nobody
    caught (the interpreter then prints a traceback on standard error). *)
Inductive termination : Type :=
  | Exited (code : Z)
  | Traceback (e : exn).

Record result : Type := Result {
  status : termination;
  printed : list pyval;
  lib_calls : list call
}.

(** Running [main()] as the script's only statement, from an empty output. *)
Definition run (main : M unit) : result :=
  match main (World [] []) with
  | (Normal _, w) => Result (Exited 0) (stdout w) (calls w)
  | (Raised e, w) => Result (Traceback e) (stdout w) (calls w)
  | (SysExit c, w) => Result (Exited c) (stdout w) (calls w)
  end.

(** The three JSON objects the scripts print. *)
Definition ok_object : pyval :=
  PDict {[ "status" := PStr "ok" ]}.

Definition ok_payload_object (payload_hex : string) : pyval :=
  PDict (<[ "status" := PStr "ok" ]> {[ "payload_hex" := PStr payload_hex ]}).

Definition error_object (message : string) : pyval :=
  PDict (<[ "status" := PStr "error" ]> {[ "message" := PStr message ]}).

(** The output paths of the [imwrite] calls of a trace: the files a run has
    asked the codec to write. *)
Definition written_paths (cs : list call) : list pyval :=
  omap (fun c => match c with CallImwrite p _ _ => Some p | _ => None end) cs.

End Proc.

(* ===================================================================== *)
(** * scripts/embed_watermark.py *)
(* ===================================================================== *)

Module EmbedWatermark.
Import Py Proc.

Section Main.
Variable E : Env.

Definition call_imread (path : pyval) : M (option image) :=
  record_call (CallImread path);; lift (imread E path).

(** [encoder.set_watermark('bytes', payload_bytes)]: stores the payload in
    the encoder. *)
Definition set_watermark (wm_type : string) (content : bytes) : M unit :=
  record_call (CallSetWatermark wm_type content).

(** [encoder.encode(img, method)] on the encoder holding [content]. *)
Definition call_encode (wm_type : string) (content : bytes)
    (img : image) (method : string) : M image :=
  record_call (CallEncode img method);; lift (encode E wm_type content img method).

(** [cv2.imwrite(path, img, params)]; the value it returns is dropped. *)
Definition call_imwrite (path : pyval) (img : image)
    (params : list (imwrite_flag * pyval)) : M unit :=
  record_call (CallImwrite path img params);;
  _ ← lift (imwrite E path img params);
  mret ().

(** Lines 33 to 40: the output format is chosen from the extension. *)
Definition write_output (output_path : pyval) (watermarked : image)
    (jpeg_quality : pyval) : M unit :=
  lo ← lift (method_lower output_path);
  if endswith_any lo [".jpg"; ".jpeg"] then
    call_imwrite output_path watermarked [(IMWRITE_JPEG_QUALITY, jpeg_quality)]
  else
    lo ← lift (method_lower output_path);
    if endswith lo ".png" then
      call_imwrite output_path watermarked [(IMWRITE_PNG_COMPRESSION, PInt 3)]
    else
      lo ← lift (method_lower output_path);
      if endswith lo ".webp" then
        call_imwrite output_path watermarked [(IMWRITE_WEBP_QUALITY, jpeg_quality)]
      else
        call_imwrite output_path watermarked [].

(** Lines 13 to 42, from the parsed arguments on. *)
Definition pipeline (args : pyval) : M unit :=
  input_path ← lift (getitem args "input_path");
  output_path ← lift (getitem args "output_path");
  payload_hex ← lift (getitem args "payload_hex");
  jpeg_quality ← lift (get args "jpeg_quality" (PInt 92));
  import E "cv2";;
  import E "imwatermark";;
  img ← call_imread input_path;
  match img with
  | None =>
      print_json (error_object
        ("Failed to read image: " +:+ format_value (repr_compound E) input_path));;
      sys_exit 1
  | Some img =>
      payload_bytes ← lift (bytes_fromhex payload_hex);
      set_watermark "bytes" payload_bytes;;
      watermarked ← call_encode "bytes" payload_bytes img "dwtDctSvd";
      write_output output_path watermarked jpeg_quality;;
      print_json ok_object
  end.

(** Lines 11 to 46. *)
Definition main (argv : list string) : M unit :=
  try_except
    (arg ← argv_get argv 1;
     args ← lift (json_loads E arg);
     pipeline args)
    (fun e => print_json (error_object (exc_str e));; sys_exit 1).

(** The script run as a process. *)
Definition embed_watermark (argv : list string) : result := run (main argv).
End Main.

End EmbedWatermark.

(* ===================================================================== *)
(** * scripts/detect_watermark.py *)
(* ===================================================================== *)

Module DetectWatermark.
Import Py Proc.

Section Main.
Variable E : Env.

Definition call_imread (path : pyval) : M (option image) :=
  record_call (CallImread path);; lift (imread E path).

(** [WatermarkDecoder(wm_type, length)]: stores both in the decoder. *)
Definition new_decoder (wm_type : string) (length : pyval) : M unit :=
  record_call (CallWatermarkDecoder wm_type length).

(** [decoder.decode(img, method)] on the decoder built with [wm_type] and
    [length]. *)
Definition call_decode (wm_type : string) (length : pyval)
    (img : image) (method : string) : M bytes :=
  record_call (CallDecode img method);; lift (decode E wm_type length img method).

(** Lines 14 to 29, from the parsed arguments on. *)
Definition pipeline (args : pyval) : M unit :=
  input_path ← lift (getitem args "input_path");
  payload_length ← lift (get args "payload_length" (PInt 16));
  import E "cv2";;
  import E "imwatermark";;
  img ← call_imread input_path;
  match img with
  | None =>
      print_json (error_object
        ("Failed to read image: " +:+ format_value (repr_compound E) input_path));;
      sys_exit 1
  | Some img =>
      bits ← lift (mul_8 payload_length);
      new_decoder "bytes" bits;;
      payload ← call_decode "bytes" bits img "dwtDctSvd";
      print_json (ok_payload_object (hex payload))
  end.

(** Lines 11 to 33. *)
Definition main (argv : list string) : M unit :=
  try_except
    (arg ← argv_get argv 1;
     args ← lift (json_loads E arg);
     pipeline args)
    (fun e => print_json (error_object (exc_str e));; sys_exit 1).

(** The script run as a process. *)
Definition detect_watermark (argv : list string) : result := run (main argv).
End Main.

End DetectWatermark.

(* ===================================================================== *)
(** * The contract: what the statements below are phrased with *)
(* ===================================================================== *)

Module Contract.
Import Py Proc.

(** [sub] occurs in [s]. *)
Definition contains (s sub : string) : Prop :=
  exists pre post, s = pre +:+ sub +:+ post.

(** Line 12 of both scripts returns [args]: there is an argument and it is
    well-formed JSON. *)
Definition parses (E : Env) (argv : list string) (args : pyval) : Prop :=
  exists arg, argv !! 1 = Some arg /\ json_loads E arg = inr args.

(** Both imports succeed. *)
Definition imports_ok (E : Env) : Prop :=
  import_module E "cv2" = None /\ import_module E "imwatermark" = None.

(** ** Embed *)

(** The four variables bound at lines 13 to 16. *)
Record embed_request : Type := EmbedRequest {
  input_path : pyval;
  output_path : pyval;
  payload_hex : pyval;
  jpeg_quality : pyval
}.

(** Lines 12 to 16 return: the argument parses and has the required fields. *)
Definition embed_parses (E : Env) (argv : list string) (rq : embed_request) : Prop :=
  exists args,
    parses E argv args /\
    getitem args "input_path" = inr (input_path rq) /\
    getitem args "output_path" = inr (output_path rq) /\
    getitem args "payload_hex" = inr (payload_hex rq) /\
    get args "jpeg_quality" (PInt 92) = inr (jpeg_quality rq).

(** Lines 12 to 21 return and the image load yields the buffer [img]. *)
Definition embed_loads (E : Env) (argv : list string)
    (rq : embed_request) (img : image) : Prop :=
  embed_parses E argv rq /\ imports_ok E /\
  imread E (input_path rq) = inr (Some img).

(** Lines 12 to 30 return: the payload [bs] is decoded and embedded into
    [img], giving [watermarked], and the output path is the string [path];
    the run has reached the output-writing step. *)
Definition embed_reaches_write (E : Env) (argv : list string)
    (rq : embed_request) (img : image) (bs : bytes)
    (watermarked : image) (path : string) : Prop :=
  embed_loads E argv rq img /\
  bytes_fromhex (payload_hex rq) = inr bs /\
  encode E "bytes" bs img "dwtDctSvd" = inr watermarked /\
  output_path rq = PStr path.

(** The path has the extension [ext], letter case aside: it is some stem
    followed by a spelling of [ext] in upper-case or lower-case letters. *)
Definition has_extension (path ext : string) : Prop :=
  exists stem e, path = stem +:+ e /\ lower e = ext.

(** The table of section 4.5 of the specification. *)
Definition profile_of (path : string) (quality : pyval)
    (params : list (imwrite_flag * pyval)) : Prop :=
  (has_extension path ".jpg" \/ has_extension path ".jpeg" ->
     params = [(IMWRITE_JPEG_QUALITY, quality)]) /\
  (has_extension path ".png" ->
     params = [(IMWRITE_PNG_COMPRESSION, PInt 3)]) /\
  (has_extension path ".webp" ->
     params = [(IMWRITE_WEBP_QUALITY, quality)]) /\
  (~ has_extension path ".jpg" -> ~ has_extension path ".jpeg" ->
   ~ has_extension path ".png" -> ~ has_extension path ".webp" ->
     params = []).

(** Lines 33 to 40 read as a function: the options the chain of tests
    passes to [cv2.imwrite] for the output path [path]. *)
Definition encoding_params (path : string) (quality : pyval)
    : list (imwrite_flag * pyval) :=
  if endswith_any (lower path) [".jpg"; ".jpeg"] then
    [(IMWRITE_JPEG_QUALITY, quality)]
  else if endswith (lower path) ".png" then
    [(IMWRITE_PNG_COMPRESSION, PInt 3)]
  else if endswith (lower path) ".webp" then
    [(IMWRITE_WEBP_QUALITY, quality)]
  else [].

(** The failures of an embed run before the output-writing step, each
    stated on the input and the libraries alone. *)
Inductive fails_before_write (E : Env) (argv : list string) : Prop :=
  | NoArgument :
      argv !! 1 = None -> fails_before_write E argv
  | MalformedJson arg e :
      argv !! 1 = Some arg -> json_loads E arg = inl e ->
      fails_before_write E argv
  | MissingField args key e :
      parses E argv args ->
      key ∈ ["input_path"; "output_path"; "payload_hex"] ->
      getitem args key = inl e ->
      fails_before_write E argv
  | ImportFails args name e :
      parses E argv args ->
      name ∈ ["cv2"; "imwatermark"] ->
      import_module E name = Some e ->
      fails_before_write E argv
  | ImageLoadRaises args path e :
      parses E argv args -> getitem args "input_path" = inr path ->
      imread E path = inl e ->
      fails_before_write E argv
  | ImageUnreadable args path :
      parses E argv args -> getitem args "input_path" = inr path ->
      imread E path = inr None ->
      fails_before_write E argv
  | PayloadNotHex args payload e :
      parses E argv args -> getitem args "payload_hex" = inr payload ->
      bytes_fromhex payload = inl e ->
      fails_before_write E argv
  | EmbedRaises rq img bs e :
      embed_loads E argv rq img ->
      bytes_fromhex (payload_hex rq) = inr bs ->
      encode E "bytes" bs img "dwtDctSvd" = inl e ->
      fails_before_write E argv
  | OutputPathNotStr args path e :
      parses E argv args -> getitem args "output_path" = inr path ->
      method_lower path = inl e ->
      fails_before_write E argv.


(** Every step of an embed run returns and the file is written. *)
Definition embed_succeeds (E : Env) (argv : list string) : Prop :=
  exists rq img bs watermarked path params,
    embed_reaches_write E argv rq img bs watermarked path /\
    profile_of path (jpeg_quality rq) params /\
    imwrite E (PStr path) watermarked params = inr true.

(** ** Hexadecimal payloads *)

(** The value of a hexadecimal digit, in either letter case. *)
Definition hex_digit_value (c : ascii) : option N :=
  let n := N_of_ascii c in
  if ((48 <=? n) && (n <=? 57))%N then Some (n - 48)%N
  else if ((97 <=? n) && (n <=? 102))%N then Some (n - 87)%N
  else if ((65 <=? n) && (n <=? 70))%N then Some (n - 55)%N
  else None.

(** Hex-decoding as the specification means it: the digits are read in
    pairs, high digit first, one byte per pair. *)
Fixpoint hex_decode (s : string) : option bytes :=
  match s with
  | EmptyString => Some []
  | String _ EmptyString => None
  | String c1 (String c2 r) =>
      match hex_digit_value c1, hex_digit_value c2, hex_decode r with
      | Some hi, Some lo, Some bs =>
          match Byte.of_N (16 * hi + lo) with
          | Some b => Some (b :: bs)
          | None => None
          end
      | _, _, _ => None
      end
  end.

(** A valid hex string: an even number of hexadecimal digits. *)
Definition valid_hex (s : string) : Prop := is_Some (hex_decode s).

(** ** Detect *)

(** Lines 12 to 15 of the detector return: the argument parses and has the
    required field. *)
Definition detect_parses (E : Env) (argv : list string)
    (path payload_length : pyval) : Prop :=
  exists args,
    parses E argv args /\
    getitem args "input_path" = inr path /\
    get args "payload_length" (PInt 16) = inr payload_length.

(** Lines 12 to 20 of the detector return and the image load yields [img]. *)
Definition detect_loads (E : Env) (argv : list string)
    (path payload_length : pyval) (img : image) : Prop :=
  detect_parses E argv path payload_length /\ imports_ok E /\
  imread E path = inr (Some img).

(** Every step of a detect run returns, the decoder giving [payload]. *)
Definition detect_succeeds (E : Env) (argv : list string) (payload : bytes) : Prop :=
  exists path payload_length img bits,
    detect_loads E argv path payload_length img /\
    mul_8 payload_length = inr bits /\
    decode E "bytes" bits img "dwtDctSvd" = inr payload.


End Contract.

(* ===================================================================== *)
(** * Concrete runs *)
(* ===================================================================== *)

Module Scenario.
Import Py Proc.

(** JSON text is written here with apostrophes for its quotation marks. *)
Fixpoint json_text (s : string) : string :=
  match s with
  | EmptyString => EmptyString
  | String c r =>
      String (if Ascii.eqb c "'"%char then ascii_of_N 34 else c) (json_text r)
  end.

Definition hello_hex : string := "48656c6c6f21202020".

(** The bytes of [Hello!] and three spaces. *)
Definition hello : bytes := [x48; x65; x6c; x6c; x6f; x21; x20; x20; x20].

Definition dict (kvs : list (string * pyval)) : pyval := PDict (list_to_map kvs).

(** The argument strings of the runs below, with the value each parses to. *)
Definition embed_png : string :=
  json_text "{'input_path': 'a.png', 'output_path': 'b.png', 'payload_hex': '48656c6c6f21202020'}".
Definition embed_png_args : pyval :=
  dict [("input_path", PStr "a.png"); ("output_path", PStr "b.png");
        ("payload_hex", PStr hello_hex)].

Definition embed_jpg : string :=
  json_text "{'input_path': 'a.png', 'output_path': 'OUT.JPG', 'payload_hex': '48656C6C6F21202020', 'jpeg_quality': 80}".
Definition embed_jpg_args : pyval :=
  dict [("input_path", PStr "a.png"); ("output_path", PStr "OUT.JPG");
        ("payload_hex", PStr "48656C6C6F21202020"); ("jpeg_quality", PInt 80)].

Definition embed_readonly : string :=
  json_text "{'input_path': 'a.png', 'output_path': '/readonly/b.png', 'payload_hex': '48656c6c6f21202020'}".
Definition embed_readonly_args : pyval :=
  dict [("input_path", PStr "a.png"); ("output_path", PStr "/readonly/b.png");
        ("payload_hex", PStr hello_hex)].

Definition embed_missing : string :=
  json_text "{'input_path': 'missing.png', 'output_path': 'b.png', 'payload_hex': '48656c6c6f21202020'}".
Definition embed_missing_args : pyval :=
  dict [("input_path", PStr "missing.png"); ("output_path", PStr "b.png");
        ("payload_hex", PStr hello_hex)].

Definition embed_not_hex : string :=
  json_text "{'input_path': 'a.png', 'output_path': 'b.png', 'payload_hex': 'xyz'}".
Definition embed_not_hex_args : pyval :=
  dict [("input_path", PStr "a.png"); ("output_path", PStr "b.png");
        ("payload_hex", PStr "xyz")].

Definition detect_nine : string :=
  json_text "{'input_path': 'b.png', 'payload_length': 9}".
Definition detect_nine_args : pyval :=
  dict [("input_path", PStr "b.png"); ("payload_length", PInt 9)].

Definition detect_default : string :=
  json_text "{'input_path': 'b.png'}".
Definition detect_default_args : pyval :=
  dict [("input_path", PStr "b.png")].

Definition detect_missing : string :=
  json_text "{'input_path': 'missing.png'}".
Definition detect_missing_args : pyval :=
  dict [("input_path", PStr "missing.png")].

Definition known_arguments : list (string * pyval) :=
  [(embed_png, embed_png_args); (embed_jpg, embed_jpg_args);
   (embed_readonly, embed_readonly_args); (embed_missing, embed_missing_args);
   (embed_not_hex, embed_not_hex_args); (detect_nine, detect_nine_args);
   (detect_default, detect_default_args); (detect_missing, detect_missing_args)].

Fixpoint assoc (k : string) (kvs : list (string * pyval)) : option pyval :=
  match kvs with
  | [] => None
  | (k', v) :: r => if String.eqb k k' then Some v else assoc k r
  end.

(** A parser that knows the argument strings above and rejects all others. *)
Definition loads (s : string) : exn + pyval :=
  match assoc s known_arguments with
  | Some v => inr v
  | None => inl (Exn "JSONDecodeError" "Expecting value: line 1 column 1 (char 0)")
  end.

(** A 1 by 2 image, and the same image after embedding. *)
Definition picture : image := [[[10; 20; 30]; [40; 50; 60]]]%N.
Definition marked_picture : image := [[[11; 20; 30]; [40; 51; 60]]]%N.

(** A file system with [a.png] (plain) and [b.png] (watermarked), where
    nothing can be written under [/readonly/]: [imwrite] returns [False]
    there, as OpenCV does when it cannot open the file. *)
Definition studio : Env := {|
  json_loads := loads;
  import_module := fun _ => None;
  imread := fun p =>
    match p with
    | PStr s =>
        if String.eqb s "a.png" then inr (Some picture)
        else if String.eqb s "b.png" then inr (Some marked_picture)
        else inr None
    | _ => inl (Exn "TypeError" "Can't convert object to 'str' for 'filename'")
    end;
  encode := fun _ _ _ _ => inr marked_picture;
  imwrite := fun p _ _ =>
    match p with
    | PStr s => inr (negb (String.prefix "/readonly/" s))
    | _ => inl (Exn "TypeError" "Can't convert object to 'str' for 'filename'")
    end;
  decode := fun _ bits _ _ =>
    match bits with
    | PInt 72 => inr hello
    | PInt n => inr (repeat x00 (Z.to_nat (n / 8)))
    | _ => inl (Exn "TypeError" "bad length")
    end;
  repr_compound := fun _ => "..."
|}.

Definition script_embed : string := "embed_watermark.py".
Definition script_detect : string := "detect_watermark.py".

End Scenario.

(* ===================================================================== *)
(** * More concrete runs: arguments and libraries that go wrong *)
(* ===================================================================== *)

Module Workshop.
Import Py Proc Scenario.

(** Every character of [s] is a hexadecimal digit to [bytes.fromhex]. *)
Fixpoint all_hex_digits (s : string) : bool :=
  match s with
  | EmptyString => true
  | String c r => (digit_value c <? 16)%N && all_hex_digits r
  end.

Definition json_list : string := "[1, 2]".
Definition json_list_value : pyval := PList [PInt 1; PInt 2].

Definition embed_bin : string :=
  json_text "{'input_path': 'a.png', 'output_path': 'out.bin', 'payload_hex': '48656c6c6f21202020'}".
Definition embed_bin_args : pyval :=
  dict [("input_path", PStr "a.png"); ("output_path", PStr "out.bin");
        ("payload_hex", PStr hello_hex)].

Definition embed_null_quality : string :=
  json_text "{'input_path': 'a.png', 'output_path': 'c.jpg', 'payload_hex': '48656c6c6f21202020', 'jpeg_quality': null}".
Definition embed_null_quality_fields : list (string * pyval) :=
  [("input_path", PStr "a.png"); ("output_path", PStr "c.jpg");
   ("payload_hex", PStr hello_hex); ("jpeg_quality", PNone)].

Definition embed_odd : string :=
  json_text "{'input_path': 'a.png', 'output_path': 'b.png', 'payload_hex': 'abc'}".
Definition embed_odd_args : pyval :=
  dict [("input_path", PStr "a.png"); ("output_path", PStr "b.png");
        ("payload_hex", PStr "abc")].

Definition embed_spaced : string :=
  json_text "{'input_path': 'a.png', 'output_path': 'b.png', 'payload_hex': '4865 6c6c6f'}".
Definition embed_spaced_args : pyval :=
  dict [("input_path", PStr "a.png"); ("output_path", PStr "b.png");
        ("payload_hex", PStr "4865 6c6c6f")].

Definition embed_no_output : string :=
  json_text "{'input_path': 'a.png', 'payload_hex': '48656c6c6f21202020'}".
Definition embed_no_output_fields : list (string * pyval) :=
  [("input_path", PStr "a.png"); ("payload_hex", PStr hello_hex)].

Definition embed_numeric_output : string :=
  json_text "{'input_path': 'a.png', 'output_path': 5, 'payload_hex': '48656c6c6f21202020'}".
Definition embed_numeric_output_args : pyval :=
  dict [("input_path", PStr "a.png"); ("output_path", PInt 5);
        ("payload_hex", PStr hello_hex)].

Definition detect_null_length : string :=
  json_text "{'input_path': 'b.png', 'payload_length': null}".
Definition detect_null_length_args : pyval :=
  dict [("input_path", PStr "b.png"); ("payload_length", PNone)].

Definition more_arguments : list (string * pyval) :=
  [(json_list, json_list_value); (embed_bin, embed_bin_args);
   (embed_null_quality, dict embed_null_quality_fields);
   (embed_odd, embed_odd_args); (embed_spaced, embed_spaced_args);
   (embed_no_output, dict embed_no_output_fields);
   (embed_numeric_output, embed_numeric_output_args);
   (detect_null_length, detect_null_length_args)].

(** A parser for the argument strings of both lists. *)
Definition loads_more (s : string) : exn + pyval :=
  match assoc s (more_arguments ++ known_arguments) with
  | Some v => inr v
  | None => inl (Exn "JSONDecodeError" "Expecting value: line 1 column 1 (char 0)")
  end.

(** The libraries of [studio], with a codec that raises for an output path
    whose extension it has no writer for, as OpenCV does. *)
Definition workshop : Env := {|
  json_loads := loads_more;
  import_module := import_module studio;
  imread := imread studio;
  encode := encode studio;
  imwrite := fun p _ _ =>
    match p with
    | PStr s =>
        if endswith_any (lower s) [".jpg"; ".jpeg"; ".png"; ".webp"]
        then inr true
        else inl (Exn "error" "could not find a writer for the specified extension")
    | _ => inl (Exn "TypeError" "Can't convert object to 'str' for 'filename'")
    end;
  decode := decode studio;
  repr_compound := repr_compound studio
|}.

(** A machine without OpenCV. *)
Definition bare : Env := {|
  json_loads := loads_more;
  import_module := fun name =>
    if String.eqb name "cv2"
    then Some (Exn "ModuleNotFoundError" "No module named 'cv2'")
    else None;
  imread := imread studio;
  encode := encode studio;
  imwrite := imwrite studio;
  decode := decode studio;
  repr_compound := repr_compound studio
|}.

End Workshop.

(* ===================================================================== *)
(** * Facts about the builtins *)
(* ===================================================================== *)

Module Suffix.
Import Py Contract.

Lemma endswith_unfold s suf :
  endswith s suf =
  if String.eqb s suf then true
  else match s with EmptyString => false | String _ r => endswith r suf end.
Proof. destruct s; reflexivity. Qed.

Lemma endswith_refl s : endswith s s = true.
Proof. rewrite endswith_unfold, String.eqb_refl. reflexivity. Qed.

Lemma endswith_app p suf : endswith (p +:+ suf) suf = true.
Proof.
  induction p as [|c p IH].
  - apply endswith_refl.
  - change (String c p +:+ suf) with (String c (p +:+ suf)).
    rewrite endswith_unfold. destruct (String.eqb _ _); [reflexivity | exact IH].
Qed.

Lemma endswith_inv s suf :
  endswith s suf = true -> exists p, s = p +:+ suf.
Proof.
  induction s as [|c s IH]; rewrite endswith_unfold;
    destruct (String.eqb _ suf) eqn:Heq; intros H.
  - apply String.eqb_eq in Heq. exists EmptyString. exact Heq.
  - discriminate.
  - apply String.eqb_eq in Heq. exists EmptyString. exact Heq.
  - destruct (IH H) as [p ->]. exists (String c p). reflexivity.
Qed.

Lemma endswith_spec s suf :
  endswith s suf = true <-> exists p, s = p +:+ suf.
Proof.
  split; [apply endswith_inv | intros [p ->]; apply endswith_app].
Qed.

(** Two suffixes of one string: one is a suffix of the other. *)
Lemma endswith_comparable s a b :
  endswith s a = true -> endswith s b = true ->
  endswith a b = true \/ endswith b a = true.
Proof.
  induction s as [|c s IH]; rewrite (endswith_unfold _ a), (endswith_unfold _ b);
    destruct (String.eqb _ a) eqn:Ha; destruct (String.eqb _ b) eqn:Hb;
    try (apply String.eqb_eq in Ha); try (apply String.eqb_eq in Hb);
    intros H1 H2; try discriminate.
  - subst. left. apply endswith_refl.
  - subst. left. apply endswith_refl.
  - subst a. left. rewrite endswith_unfold, Hb. exact H2.
  - subst b. right. rewrite endswith_unfold, Ha. exact H1.
  - auto.
Qed.

Lemma lower_app a b : lower (a +:+ b) = lower a +:+ lower b.
Proof. induction a as [|c a IH]; simpl; [reflexivity | by rewrite IH]. Qed.

Lemma lower_char_idem c : lower_char (lower_char c) = lower_char c.
Proof. destruct c as [[] [] [] [] [] [] [] []]; reflexivity. Qed.

Lemma lower_idem s : lower (lower s) = lower s.
Proof. induction s as [|c s IH]; simpl; [reflexivity | by rewrite lower_char_idem, IH]. Qed.

Lemma has_extension_intro path ext :
  endswith (lower path) ext = true -> has_extension path ext.
Proof.
  induction path as [|c path IH]; rewrite endswith_unfold;
    destruct (String.eqb _ ext) eqn:Heq; intros H.
  - apply String.eqb_eq in Heq. by exists EmptyString, EmptyString.
  - discriminate.
  - apply String.eqb_eq in Heq. by exists EmptyString, (String c path).
  - destruct (IH H) as (stem & e & -> & He).
    by exists (String c stem), e.
Qed.

Lemma has_extension_spec path ext :
  has_extension path ext <-> endswith (lower path) ext = true.
Proof.
  split; [| apply has_extension_intro].
  intros (stem & e & -> & <-). rewrite lower_app. apply endswith_app.
Qed.

End Suffix.

Module Hex.
Import Py Contract.

(** What a hexadecimal digit is to [bytes.fromhex] and to [bytes.hex]. *)
Lemma hex_char c d :
  hex_digit_value c = Some d ->
  digit_value c = d /\ (d < 16)%N /\ is_space c = false /\
  (N_of_ascii c < 128)%N /\ hexdigit d = lower_char c.
Proof.
  destruct c as [[] [] [] [] [] [] [] []]; vm_compute; intros H;
    first [discriminate H | injection H as <-; repeat split; reflexivity].
Qed.

Lemma hex_digit_value_lower c :
  hex_digit_value (lower_char c) = hex_digit_value c.
Proof. destruct c as [[] [] [] [] [] [] [] []]; reflexivity. Qed.

(** Two nibbles make a byte and the byte gives them back. *)
Lemma nibbles_byte hi lo b :
  (hi < 16)%N -> (lo < 16)%N -> Byte.of_N (16 * hi + lo) = Some b ->
  b = byte_of_nibbles hi lo /\
  N.land (N.shiftr (Byte.to_N b) 4) 15 = hi /\ N.land (Byte.to_N b) 15 = lo.
Proof.
  intros Hhi Hlo Hb. split.
  - unfold byte_of_nibbles. rewrite N.shiftl_mul_pow2.
    replace (hi * 2 ^ 4)%N with (16 * hi)%N by (change (2 ^ 4)%N with 16%N; lia).
    pose proof (byte_of_ascii_via_N (ascii_of_N (16 * hi + lo))) as Hvia.
    rewrite N_ascii_embedding in Hvia by lia. congruence.
  - apply Byte.to_of_N in Hb. rewrite Hb.
    rewrite N.shiftr_div_pow2. change 15%N with (N.ones 4).
    rewrite !N.land_ones. change (2 ^ 4)%N with 16%N.
    assert ((16 * hi + lo) / 16 = hi)%N as Hq
      by (symmetry; apply (N.div_unique _ 16 hi lo); lia).
    assert ((16 * hi + lo) mod 16 = lo)%N as Hr
      by (symmetry; apply (N.mod_unique _ 16 hi lo); lia).
    rewrite Hq, Hr. split; [apply N.mod_small; lia | reflexivity].
Qed.

(** Induction over a string two characters at a time. *)
Lemma string_pair_ind (P : string -> Prop) :
  P EmptyString ->
  (forall c, P (String c EmptyString)) ->
  (forall c1 c2 r, P r -> P (String c1 (String c2 r))) ->
  forall s, P s.
Proof.
  intros H0 H1 H2 s.
  assert (P s /\ forall c, P (String c s)) as [H _]; [| exact H].
  induction s as [|c s [IH1 IH2]]; split; auto.
Qed.

Lemma valid_hex_ascii s bs pos :
  hex_decode s = Some bs -> first_non_ascii pos s = None.
Proof.
  revert bs pos. induction s as [| c | c1 c2 r IH] using string_pair_ind;
    intros bs pos H; simpl in *; try discriminate; [reflexivity |].
  destruct (hex_digit_value c1) as [hi|] eqn:H1; [| discriminate].
  destruct (hex_digit_value c2) as [lo|] eqn:H2; [| discriminate].
  destruct (hex_decode r) as [bs'|] eqn:Hr; [| discriminate].
  apply hex_char in H1 as (_ & _ & _ & A1 & _).
  apply hex_char in H2 as (_ & _ & _ & A2 & _).
  apply N.leb_gt in A1, A2. rewrite A1, A2. eauto.
Qed.

Lemma valid_hex_fromhex_from s bs pos :
  hex_decode s = Some bs -> fromhex_from pos s = inr bs.
Proof.
  revert bs pos. induction s as [| c | c1 c2 r IH] using string_pair_ind;
    intros bs pos H; simpl in *; try discriminate; [congruence |].
  destruct (hex_digit_value c1) as [hi|] eqn:H1; [| discriminate].
  destruct (hex_digit_value c2) as [lo|] eqn:H2; [| discriminate].
  destruct (hex_decode r) as [bs'|] eqn:Hr; [| discriminate].
  destruct (Byte.of_N (16 * hi + lo)) as [b|] eqn:Hb; [| discriminate].
  injection H as <-.
  apply hex_char in H1 as (D1 & L1 & S1 & _ & _).
  apply hex_char in H2 as (D2 & L2 & _ & _ & _).
  destruct (nibbles_byte hi lo b L1 L2 Hb) as (-> & _ & _).
  rewrite S1, D1, D2.
  apply N.leb_gt in L1, L2. rewrite L1, L2.
  rewrite (IH bs' (S (S pos)) eq_refl). reflexivity.
Qed.

(** [bytes.fromhex] computes the hex-decoding of a valid hex string. *)
Lemma fromhex_valid s bs : hex_decode s = Some bs -> fromhex s = inr bs.
Proof.
  intros H. unfold fromhex.
  rewrite (valid_hex_ascii s bs 0 H). exact (valid_hex_fromhex_from s bs 0 H).
Qed.

(** No digit is lost: re-encoding the bytes gives the string back, in
    lower case. *)
Lemma hex_of_decode s bs : hex_decode s = Some bs -> hex bs = lower s.
Proof.
  revert bs. induction s as [| c | c1 c2 r IH] using string_pair_ind;
    intros bs H; cbn [hex_decode] in H; try discriminate.
  - injection H as <-. reflexivity.
  - destruct (hex_digit_value c1) as [hi|] eqn:H1; [| discriminate].
    destruct (hex_digit_value c2) as [lo|] eqn:H2; [| discriminate].
    destruct (hex_decode r) as [bs'|] eqn:Hr; [| discriminate].
    destruct (Byte.of_N (16 * hi + lo)) as [b|] eqn:Hb; [| discriminate].
    injection H as <-.
    apply hex_char in H1 as (_ & L1 & _ & _ & X1).
    apply hex_char in H2 as (_ & L2 & _ & _ & X2).
    destruct (nibbles_byte hi lo b L1 L2 Hb) as (_ & E1 & E2).
    cbn [hex lower]. rewrite E1, E2, X1, X2, (IH bs' eq_refl). reflexivity.
Qed.

Lemma decode_length s bs :
  hex_decode s = Some bs -> String.length s = 2 * length bs.
Proof.
  revert bs. induction s as [| c | c1 c2 r IH] using string_pair_ind;
    intros bs H; simpl in *; try discriminate.
  - injection H as <-. reflexivity.
  - destruct (hex_digit_value c1), (hex_digit_value c2); try discriminate.
    destruct (hex_decode r) as [bs'|]; [| discriminate].
    destruct (Byte.of_N _); [| discriminate].
    injection H as <-. rewrite (IH bs' eq_refl). simpl. lia.
Qed.

Lemma hex_decode_lower s : hex_decode (lower s) = hex_decode s.
Proof.
  induction s as [| c | c1 c2 r IH] using string_pair_ind; try reflexivity.
  - cbn [lower hex_decode]. rewrite !hex_digit_value_lower, IH. reflexivity.
Qed.

(** The letter case of the digits does not matter. *)
Lemma hex_decode_case s s' : lower s' = lower s -> hex_decode s' = hex_decode s.
Proof.
  intros H. rewrite <- (hex_decode_lower s'), <- (hex_decode_lower s), H.
  reflexivity.
Qed.

End Hex.

(* ===================================================================== *)
(** * Running the scripts *)
(* ===================================================================== *)

Arguments Proc.error_object : simpl never.
Arguments Proc.ok_object : simpl never.
Arguments Proc.ok_payload_object : simpl never.
Arguments Py.getitem : simpl never.
Arguments Py.get : simpl never.
Arguments Py.mul_8 : simpl never.
Arguments Py.method_lower : simpl never.
Arguments Py.bytes_fromhex : simpl never.
Arguments Py.endswith : simpl never.
Arguments Py.endswith_any : simpl never.
Arguments Py.format_value : simpl never.
Arguments Py.hex : simpl never.
Arguments Py.lower : simpl never.
Arguments String.append : simpl never.

(** Unfolds a run down to the outcomes of its steps. *)
Ltac unfold_script :=
  unfold EmbedWatermark.embed_watermark, DetectWatermark.detect_watermark,
    Proc.run, EmbedWatermark.main, DetectWatermark.main, Proc.try_except,
    EmbedWatermark.pipeline, DetectWatermark.pipeline,
    EmbedWatermark.write_output, EmbedWatermark.call_imwrite,
    EmbedWatermark.call_imread, DetectWatermark.call_imread,
    EmbedWatermark.call_encode, EmbedWatermark.set_watermark,
    DetectWatermark.call_decode, DetectWatermark.new_decoder,
    Proc.import, Proc.argv_get, Proc.print_json, Proc.record_call,
    Proc.sys_exit, Proc.lift, mbind, Proc.M_bind, mret, Proc.M_ret.

(** One step of a run: its outcome is known from a hypothesis, or both
    outcomes are considered. *)
Ltac case_step :=
  match goal with
  | H : ?x = _ |- context [match ?x with _ => _ end] => rewrite H
  | |- context [match ?x with _ => _ end] =>
      lazymatch x with
      | context [match _ with _ => _ end] => fail
      | _ => destruct x eqn:?
      end
  end.

Ltac run_script := unfold_script; repeat (simpl; case_step); simpl.

Module EmbedRun.
Import Py Proc Contract EmbedWatermark Suffix.

Lemma parses_functional E argv a1 a2 :
  parses E argv a1 -> parses E argv a2 -> a1 = a2.
Proof. intros (s1 & H1 & L1) (s2 & H2 & L2). congruence. Qed.

Lemma endswith_any_jpeg s :
  endswith_any s [".jpg"; ".jpeg"] = true <->
  endswith s ".jpg" = true \/ endswith s ".jpeg" = true.
Proof.
  unfold endswith_any. cbn [existsb]. rewrite orb_false_r, orb_true_iff. tauto.
Qed.

(** At most one row of the table applies to a path. *)
Lemma extensions_exclusive s a b :
  endswith a b = false -> endswith b a = false ->
  endswith s a = true -> endswith s b = true -> False.
Proof.
  intros Hab Hba Ha Hb.
  destruct (endswith_comparable s a b Ha Hb); congruence.
Qed.

Lemma profile_of_encoding_params path q :
  profile_of path q (encoding_params path q).
Proof.
  unfold profile_of, encoding_params. rewrite !has_extension_spec.
  destruct (endswith_any (lower path) [".jpg"; ".jpeg"]) eqn:Hj.
  - apply endswith_any_jpeg in Hj.
    repeat split; intros; try reflexivity; exfalso;
      destruct Hj as [Hj | Hj];
      try (eapply (extensions_exclusive (lower path)); [| | exact Hj | eassumption];
           reflexivity);
      congruence.
  - assert (endswith (lower path) ".jpg" = false /\
            endswith (lower path) ".jpeg" = false) as [Hj1 Hj2].
    { split; apply not_true_is_false; intros H;
        (assert (endswith_any (lower path) [".jpg"; ".jpeg"] = true)
           by (apply endswith_any_jpeg; auto)); congruence. }
    destruct (endswith (lower path) ".png") eqn:Hp;
      [| destruct (endswith (lower path) ".webp") eqn:Hw];
      repeat split; intros; try reflexivity; try congruence;
      try (destruct H; congruence);
      exfalso;
      try (eapply (extensions_exclusive (lower path) ".png" ".webp");
           [reflexivity | reflexivity | eassumption | eassumption]).
Qed.

Lemma has_extension_dec path ext :
  has_extension path ext \/ ~ has_extension path ext.
Proof.
  rewrite has_extension_spec. destruct (endswith (lower path) ext); auto.
Qed.

(** The table determines the options. *)
Lemma profile_of_unique path q params :
  profile_of path q params -> params = encoding_params path q.
Proof.
  intros (Hj & Hp & Hw & Hd).
  destruct (profile_of_encoding_params path q) as (Hj' & Hp' & Hw' & Hd').
  destruct (has_extension_dec path ".jpg"); [rewrite Hj, Hj'; auto |].
  destruct (has_extension_dec path ".jpeg"); [rewrite Hj, Hj'; auto |].
  destruct (has_extension_dec path ".png"); [rewrite Hp, Hp'; auto |].
  destruct (has_extension_dec path ".webp"); [rewrite Hw, Hw'; auto |].
  rewrite Hd, Hd'; auto.
Qed.

(** A run that reaches the output-writing step calls [cv2.imwrite] once,
    last, and reports what the call raised, or success when it returned. *)
Lemma run_at_write E argv rq img bs wm path :
  embed_reaches_write E argv rq img bs wm path ->
  embed_watermark E argv =
    let params := encoding_params path (jpeg_quality rq) in
    let trace :=
      [CallImread (input_path rq); CallSetWatermark "bytes" bs;
       CallEncode img "dwtDctSvd"; CallImwrite (PStr path) wm params] in
    match imwrite E (PStr path) wm params with
    | inr _ => Result (Exited 0) [ok_object] trace
    | inl e => Result (Exited 1) [error_object (exc_str e)] trace
    end.
Proof.
  intros (((args & (arg & Harg & Hjson) & Hip & Hop & Hph & Hq) & (Hcv & Hwm) & Himg)
          & Hhex & Henc & Hpath).
  destruct rq as [ip op ph q]; cbn [input_path output_path payload_hex jpeg_quality] in *.
  subst op. unfold encoding_params.
  unfold_script. rewrite Harg; simpl. rewrite Hjson, Hip, Hop, Hph, Hq, Hcv, Hwm; simpl.
  rewrite Himg, Hhex; simpl. rewrite Henc; simpl.
  unfold method_lower.
  destruct (endswith_any (lower path) [".jpg"; ".jpeg"]); simpl;
    [| destruct (endswith (lower path) ".png"); simpl;
       [| destruct (endswith (lower path) ".webp"); simpl]];
    destruct (imwrite E (PStr path) wm _); reflexivity.
Qed.

End EmbedRun.

Module EmbedFailures.
Import Py Proc Contract EmbedWatermark.

Ltac split_elem H :=
  repeat (apply elem_of_cons in H as [-> | H]); [.. | apply elem_of_nil in H; destruct H].

Ltac open_request rq :=
  destruct rq as [? ? ? ?];
  cbn [input_path output_path payload_hex jpeg_quality] in *.

(** Every failure before the output-writing step ends the run with exit
    code 1 and one failure object, and without a call of [cv2.imwrite]. *)
Lemma early_failure E argv :
  fails_before_write E argv ->
  status (embed_watermark E argv) = Exited 1 /\
  written_paths (lib_calls (embed_watermark E argv)) = [] /\
  exists msg, printed (embed_watermark E argv) = [error_object msg].
Proof.
  intros [ Harg
         | arg e Harg Hjson
         | args key e (arg & Harg & Hjson) Hkey Hget
         | args name e (arg & Harg & Hjson) Hname Himp
         | args path e (arg & Harg & Hjson) Hget Hread
         | args path (arg & Harg & Hjson) Hget Hread
         | args payload e (arg & Harg & Hjson) Hget Hhex
         | rq img bs e ((args & (arg & Harg & Hjson) & Hip & Hop & Hph & Hq)
                        & (Hcv & Hwm) & Himg) Hhex Henc
         | args path e (arg & Harg & Hjson) Hget Hlow ];
    try split_elem Hkey; try split_elem Hname; try open_request rq;
    run_script; eauto.
Qed.


(** The calls of an embed run, in order: a write is the fourth and last
    call, after the load, the payload and the embedding. *)
Lemma write_is_last E argv pre path img params post :
  lib_calls (embed_watermark E argv) = pre ++ CallImwrite path img params :: post ->
  post = [] /\
  exists input bs src,
    pre = [CallImread input; CallSetWatermark "bytes" bs; CallEncode src "dwtDctSvd"] /\
    encode E "bytes" bs src "dwtDctSvd" = inr img.
Proof.
  run_script; intros Hcalls;
    destruct pre as [| c1 [| c2 [| c3 [| c4 pre]]]];
    simplify_eq/=; eauto 8;
    destruct pre; discriminate.
Qed.

Ltac solve_parses := eexists; split; eassumption.





End EmbedFailures.

Module DetectRun.
Import Py Proc Contract DetectWatermark.

(** A detect run that has loaded the image: the decoder is built for
    [payload_length * 8] bits and the run reports what [decode] did. *)
Lemma run_loaded E argv path payload_length img :
  detect_loads E argv path payload_length img ->
  detect_watermark E argv =
    match mul_8 payload_length with
    | inl e => Result (Exited 1) [error_object (exc_str e)] [CallImread path]
    | inr bits =>
        let trace :=
          [CallImread path; CallWatermarkDecoder "bytes" bits;
           CallDecode img "dwtDctSvd"] in
        match decode E "bytes" bits img "dwtDctSvd" with
        | inr payload => Result (Exited 0) [ok_payload_object (hex payload)] trace
        | inl e => Result (Exited 1) [error_object (exc_str e)] trace
        end
    end.
Proof.
  intros ((args & (arg & Harg & Hjson) & Hip & Hlen) & (Hcv & Hwm) & Himg).
  run_script; reflexivity.
Qed.



Ltac solve_detect_loads :=
  split; [eexists; split; [EmbedFailures.solve_parses | split; eassumption]
         | split; [split; eassumption | eassumption] ].



End DetectRun.

(* ===================================================================== *)
(** * The output file: format, write failures, order of the steps *)
(* ===================================================================== *)

Module OutputFile.
Import Py Proc Contract Scenario.

Abbreviation embed := EmbedWatermark.embed_watermark.

(** The rows of the table on the file names of the specification. *)
Lemma table_examples q :
  encoding_params "out.jpg" q = [(IMWRITE_JPEG_QUALITY, q)] /\
  encoding_params "out.JPEG" q = [(IMWRITE_JPEG_QUALITY, q)] /\
  encoding_params "out.png" q = [(IMWRITE_PNG_COMPRESSION, PInt 3)] /\
  encoding_params "out.WebP" q = [(IMWRITE_WEBP_QUALITY, q)] /\
  encoding_params "out.bin" q = [].
Proof. repeat split; reflexivity. Qed.

(** When [cv2.imwrite] raises, the failure is reported. *)
Lemma write_exception_reported E argv rq img bs wm path e :
  embed_reaches_write E argv rq img bs wm path ->
  imwrite E (PStr path) wm (encoding_params path (jpeg_quality rq)) = inl e ->
  status (embed E argv) = Exited 1 /\
  printed (embed E argv) = [error_object (exc_str e)].
Proof.
  intros Hreach Hwrite.
  rewrite (EmbedRun.run_at_write _ _ _ _ _ _ _ Hreach). cbn zeta.
  rewrite Hwrite. split; reflexivity.
Qed.

(** C1: not met by the code.  When the run reaches the output-writing step
    and [cv2.imwrite] returns [False], the file could not be written, yet
    the embedder prints the success object and exits with code 0: lines 34
    to 40 drop the value [cv2.imwrite] returns. *)
Theorem unwritable_output_reported_as_success E argv rq img bs wm path :
  embed_reaches_write E argv rq img bs wm path ->
  imwrite E (PStr path) wm (encoding_params path (jpeg_quality rq)) = inr false ->
  status (embed E argv) = Exited 0 /\
  printed (embed E argv) = [ok_object].
Proof.
  intros Hreach Hwrite.
  rewrite (EmbedRun.run_at_write _ _ _ _ _ _ _ Hreach). cbn zeta.
  rewrite Hwrite. split; reflexivity.
Qed.

Lemma studio_parses argv arg args :
  argv !! 1 = Some arg -> loads arg = inr args -> parses studio argv args.
Proof. intros H1 H2. exists arg. split; [exact H1 | exact H2]. Qed.

(** The run that writes under [/readonly/] reaches the write. *)
Lemma readonly_reaches_write :
  embed_reaches_write studio [script_embed; embed_readonly]
    (EmbedRequest (PStr "a.png") (PStr "/readonly/b.png") (PStr hello_hex) (PInt 92))
    picture hello marked_picture "/readonly/b.png".
Proof.
  repeat split.
  exists embed_readonly_args.
  split; [apply (studio_parses _ embed_readonly); reflexivity |].
  repeat split.
Qed.

Lemma unwritable_output_reported_as_success_witness :
  imwrite studio (PStr "/readonly/b.png") marked_picture
    (encoding_params "/readonly/b.png" (PInt 92)) = inr false /\
  status (embed studio [script_embed; embed_readonly]) = Exited 0 /\
  printed (embed studio [script_embed; embed_readonly]) = [ok_object].
Proof.
  split; [reflexivity |].
  apply (unwritable_output_reported_as_success studio _ _ _ _ _ _
           readonly_reaches_write).
  reflexivity.
Defined.

(** C3: a run that reaches the output-writing step calls [cv2.imwrite] on
    the output path with the options of the table, chosen by the extension
    of the path with letter case ignored: JPEG quality [jpeg_quality] for
    [.jpg] and [.jpeg], PNG compression 3 for [.png], WEBP quality
    [jpeg_quality] for [.webp], no option for any other path. *)
Theorem encoding_chosen_by_extension E argv rq img bs wm path :
  embed_reaches_write E argv rq img bs wm path ->
  exists params,
    lib_calls (embed E argv) =
      [CallImread (input_path rq); CallSetWatermark "bytes" bs;
       CallEncode img "dwtDctSvd"; CallImwrite (PStr path) wm params] /\
    profile_of path (jpeg_quality rq) params.
Proof.
  intros Hreach. exists (encoding_params path (jpeg_quality rq)).
  split; [| apply EmbedRun.profile_of_encoding_params].
  rewrite (EmbedRun.run_at_write _ _ _ _ _ _ _ Hreach). cbn zeta.
  destruct (imwrite E _ _ _); reflexivity.
Qed.

Lemma jpg_reaches_write :
  embed_reaches_write studio [script_embed; embed_jpg]
    (EmbedRequest (PStr "a.png") (PStr "OUT.JPG") (PStr "48656C6C6F21202020") (PInt 80))
    picture hello marked_picture "OUT.JPG".
Proof.
  repeat split.
  exists embed_jpg_args.
  split; [apply (studio_parses _ embed_jpg); reflexivity |].
  repeat split.
Qed.

Lemma encoding_chosen_by_extension_witness :
  exists params,
    lib_calls (embed studio [script_embed; embed_jpg]) =
      [CallImread (PStr "a.png"); CallSetWatermark "bytes" hello;
       CallEncode picture "dwtDctSvd"; CallImwrite (PStr "OUT.JPG") marked_picture params] /\
    profile_of "OUT.JPG" (PInt 80) params.
Proof.
  exact (encoding_chosen_by_extension studio _ _ _ _ _ _ jpg_reaches_write).
Defined.

(** C10: an embed run that fails before the output-writing step (no or
    malformed argument, missing field, failed import, unreadable image,
    payload that is not hex, exception in the embedding, output path that
    is no string) makes no call of [cv2.imwrite] and exits with code 1; and
    in every run a call of [cv2.imwrite] is the last call, made after the
    payload was decoded and the embedding returned. *)
Theorem no_write_before_failure E argv :
  (fails_before_write E argv ->
     written_paths (lib_calls (embed E argv)) = [] /\
     status (embed E argv) = Exited 1) /\
  (forall pre path img params post,
     lib_calls (embed E argv) = pre ++ CallImwrite path img params :: post ->
     post = [] /\
     exists input bs src,
       pre = [CallImread input; CallSetWatermark "bytes" bs;
              CallEncode src "dwtDctSvd"] /\
       encode E "bytes" bs src "dwtDctSvd" = inr img).
Proof.
  split.
  - intros Hfail. destruct (EmbedFailures.early_failure E argv Hfail) as (H1 & H2 & _).
    split; assumption.
  - apply EmbedFailures.write_is_last.
Qed.

Lemma not_hex_fails_before_write :
  fails_before_write studio [script_embed; embed_not_hex].
Proof.
  eapply (PayloadNotHex _ _ embed_not_hex_args (PStr "xyz")).
  - apply (studio_parses _ embed_not_hex); reflexivity.
  - reflexivity.
  - reflexivity.
Qed.

Lemma no_write_before_failure_witness :
  written_paths (lib_calls (embed studio [script_embed; embed_not_hex])) = [] /\
  status (embed studio [script_embed; embed_not_hex]) = Exited 1.
Proof.
  exact (proj1 (no_write_before_failure studio [script_embed; embed_not_hex])
           not_hex_fails_before_write).
Defined.

End OutputFile.

(* ===================================================================== *)
(** * What is printed and the exit code *)
(* ===================================================================== *)

Module Reporting.
Import Py Proc Contract Scenario.

Abbreviation embed := EmbedWatermark.embed_watermark.
Abbreviation detect := DetectWatermark.detect_watermark.

Lemma append_empty_r s : s +:+ EmptyString = s.
Proof.
  induction s as [| c s IH]; [reflexivity |].
  change (String c s +:+ EmptyString) with (String c (s +:+ EmptyString)).
  by rewrite IH.
Qed.

Lemma contains_suffix pre s : contains (pre +:+ s) s.
Proof. exists pre, EmptyString. by rewrite append_empty_r. Qed.

(** An embed run whose image load yields [None]. *)
Lemma embed_unreadable E argv rq :
  embed_parses E argv rq -> imports_ok E ->
  imread E (input_path rq) = inr None ->
  embed E argv =
    Result (Exited 1)
      [error_object ("Failed to read image: "
                       +:+ format_value (repr_compound E) (input_path rq))]
      [CallImread (input_path rq)].
Proof.
  intros (args & (arg & Harg & Hjson) & Hip & Hop & Hph & Hq) (Hcv & Hwm) Himg.
  EmbedFailures.open_request rq. run_script. reflexivity.
Qed.

(** A detect run whose image load yields [None]. *)
Lemma detect_unreadable E argv path len :
  detect_parses E argv path len -> imports_ok E ->
  imread E path = inr None ->
  detect E argv =
    Result (Exited 1)
      [error_object ("Failed to read image: "
                       +:+ format_value (repr_compound E) path)]
      [CallImread path].
Proof.
  intros (args & (arg & Harg & Hjson) & Hip & Hlen) (Hcv & Hwm) Himg.
  run_script. reflexivity.
Qed.


(** C9: without a positional argument ([sys.argv] has no element at index
    1) each script prints the failure object with the text of the
    [IndexError] and exits with code 1; the exception is caught. *)
Theorem missing_argument_reported E argv :
  argv !! 1 = None ->
  embed E argv = Result (Exited 1) [error_object "list index out of range"] [] /\
  detect E argv = Result (Exited 1) [error_object "list index out of range"] [].
Proof. intros Harg. split; run_script; reflexivity. Qed.

Lemma missing_argument_reported_witness :
  embed studio [script_embed] =
    Result (Exited 1) [error_object "list index out of range"] [] /\
  detect studio [script_detect] =
    Result (Exited 1) [error_object "list index out of range"] [].
Proof.
  split.
  - exact (proj1 (missing_argument_reported studio [script_embed] eq_refl)).
  - exact (proj2 (missing_argument_reported studio [script_detect] eq_refl)).
Defined.

(** C6: when the image load yields no buffer for the input path [p], each
    script prints the failure object whose message is
    [Failed to read image: ] followed by [p], and exits with code 1. *)
Theorem unreadable_image_names_path E argv p :
  (forall rq, embed_parses E argv rq -> input_path rq = PStr p ->
     imports_ok E -> imread E (PStr p) = inr None ->
     exists message,
       printed (embed E argv) = [error_object message] /\
       contains message p /\
       status (embed E argv) = Exited 1) /\
  (forall len, detect_parses E argv (PStr p) len ->
     imports_ok E -> imread E (PStr p) = inr None ->
     exists message,
       printed (detect E argv) = [error_object message] /\
       contains message p /\
       status (detect E argv) = Exited 1).
Proof.
  split.
  - intros rq Hparse Hpath Himp Himg. rewrite <- Hpath in Himg.
    rewrite (embed_unreadable E argv rq Hparse Himp Himg), Hpath.
    eexists. split; [reflexivity |]. split; [apply contains_suffix | reflexivity].
  - intros len Hparse Himp Himg.
    rewrite (detect_unreadable E argv _ len Hparse Himp Himg).
    eexists. split; [reflexivity |]. split; [apply contains_suffix | reflexivity].
Qed.

Lemma missing_embed_parses :
  embed_parses studio [script_embed; embed_missing]
    (EmbedRequest (PStr "missing.png") (PStr "b.png") (PStr hello_hex) (PInt 92)).
Proof.
  exists embed_missing_args.
  split; [apply (OutputFile.studio_parses _ embed_missing); reflexivity |].
  repeat split.
Qed.

Lemma missing_detect_parses :
  detect_parses studio [script_detect; detect_missing] (PStr "missing.png") (PInt 16).
Proof.
  exists detect_missing_args.
  split; [apply (OutputFile.studio_parses _ detect_missing); reflexivity |].
  repeat split.
Qed.

Lemma unreadable_image_names_path_witness :
  (exists message,
     printed (embed studio [script_embed; embed_missing]) = [error_object message] /\
     contains message "missing.png" /\
     status (embed studio [script_embed; embed_missing]) = Exited 1) /\
  (exists message,
     printed (detect studio [script_detect; detect_missing]) = [error_object message] /\
     contains message "missing.png" /\
     status (detect studio [script_detect; detect_missing]) = Exited 1).
Proof.
  split.
  - apply (proj1 (unreadable_image_names_path studio _ "missing.png")
             _ missing_embed_parses); repeat split.
  - apply (proj2 (unreadable_image_names_path studio _ "missing.png")
             _ missing_detect_parses); repeat split.
Defined.

(** C8: a successful embed run prints the object with the single field
    [status] equal to [ok], without a [payload_hex] field; a successful
    detect run prints the object with [status] equal to [ok] and
    [payload_hex] equal to the hex string of the bytes the decoder
    returned; both exit with code 0. *)
Theorem success_objects E argv :
  (embed_succeeds E argv ->
     printed (embed E argv) = [ok_object] /\ status (embed E argv) = Exited 0) /\
  (forall payload, detect_succeeds E argv payload ->
     printed (detect E argv) = [ok_payload_object (hex payload)] /\
     status (detect E argv) = Exited 0) /\
  (forall key, getitem ok_object key =
     if String.eqb key "status" then inr (PStr "ok")
     else inl (Exn "KeyError" ("'" +:+ key +:+ "'"))) /\
  (forall h, getitem (ok_payload_object h) "status" = inr (PStr "ok") /\
             getitem (ok_payload_object h) "payload_hex" = inr (PStr h)).
Proof.
  split; [| split; [| split]].
  - intros (rq & img & bs & wm & path & params & Hreach & Hprof & Hwrite).
    apply EmbedRun.profile_of_unique in Hprof. subst params.
    rewrite (EmbedRun.run_at_write _ _ _ _ _ _ _ Hreach). cbn zeta.
    rewrite Hwrite. split; reflexivity.
  - intros payload (path & len & img & bits & Hload & Hmul & Hdec).
    rewrite (DetectRun.run_loaded _ _ _ _ _ Hload), Hmul. cbn zeta.
    rewrite Hdec. split; reflexivity.
  - intros key. unfold getitem, ok_object.
    destruct (String.eqb_spec key "status") as [-> | Hne].
    + by rewrite lookup_singleton_eq.
    + by rewrite lookup_singleton_ne.
  - intros h. unfold getitem, ok_payload_object. split.
    + by rewrite lookup_insert_eq.
    + rewrite lookup_insert_ne by done. by rewrite lookup_singleton_eq.
Qed.

Lemma png_embed_succeeds : embed_succeeds studio [script_embed; embed_png].
Proof.
  exists (EmbedRequest (PStr "a.png") (PStr "b.png") (PStr hello_hex) (PInt 92)),
    picture, hello, marked_picture, "b.png",
    (encoding_params "b.png" (PInt 92)).
  split; [| split; [apply EmbedRun.profile_of_encoding_params | reflexivity]].
  repeat split.
  exists embed_png_args.
  split; [apply (OutputFile.studio_parses _ embed_png); reflexivity |].
  repeat split.
Qed.

Lemma nine_detect_succeeds : detect_succeeds studio [script_detect; detect_nine] hello.
Proof.
  exists (PStr "b.png"), (PInt 9), marked_picture, (PInt 72).
  split; [| split; reflexivity].
  repeat split.
  exists detect_nine_args.
  split; [apply (OutputFile.studio_parses _ detect_nine); reflexivity |].
  repeat split.
Qed.

Lemma success_objects_witness :
  (printed (embed studio [script_embed; embed_png]) = [ok_object] /\
   status (embed studio [script_embed; embed_png]) = Exited 0) /\
  (printed (detect studio [script_detect; detect_nine]) =
     [ok_payload_object hello_hex] /\
   status (detect studio [script_detect; detect_nine]) = Exited 0).
Proof.
  split.
  - exact (proj1 (success_objects studio _) png_embed_succeeds).
  - exact (proj1 (proj2 (success_objects studio _)) hello nine_detect_succeeds).
Defined.

End Reporting.

(* ===================================================================== *)
(** * The payload and the optional fields *)
(* ===================================================================== *)

Module Payload.
Import Py Proc Contract Scenario.

Abbreviation embed := EmbedWatermark.embed_watermark.
Abbreviation detect := DetectWatermark.detect_watermark.

(** C4: a detect run with [payload_length] equal to the integer [n] that
    loads its image builds the decoder for exactly [n * 8] bits and reports
    what [decode] does for that length; for [n = 16] the length is 128. *)
Theorem decoder_bit_length E argv path n img :
  detect_loads E argv path (PInt n) img ->
  lib_calls (detect E argv) =
    [CallImread path; CallWatermarkDecoder "bytes" (PInt (n * 8));
     CallDecode img "dwtDctSvd"] /\
  match decode E "bytes" (PInt (n * 8)) img "dwtDctSvd" with
  | inr payload =>
      printed (detect E argv) = [ok_payload_object (hex payload)] /\
      status (detect E argv) = Exited 0
  | inl e =>
      printed (detect E argv) = [error_object (exc_str e)] /\
      status (detect E argv) = Exited 1
  end /\
  (n = 16%Z ->
     CallWatermarkDecoder "bytes" (PInt 128) ∈ lib_calls (detect E argv)).
Proof.
  intros Hload. rewrite (DetectRun.run_loaded _ _ _ _ _ Hload).
  change (mul_8 (PInt n)) with (@inr exn pyval (PInt (n * 8))).
  cbn beta iota zeta.
  destruct (decode E "bytes" (PInt (n * 8)) img "dwtDctSvd") as [e | payload];
    (split; [reflexivity |]); (split; [split; reflexivity |]);
    intros ->; cbn [lib_calls]; set_solver.
Qed.

Lemma nine_detect_loads :
  detect_loads studio [script_detect; detect_nine] (PStr "b.png") (PInt 9)
    marked_picture.
Proof.
  repeat split.
  exists detect_nine_args.
  split; [apply (OutputFile.studio_parses _ detect_nine); reflexivity |].
  repeat split.
Qed.

Lemma default_detect_loads :
  detect_loads studio [script_detect; detect_default] (PStr "b.png") (PInt 16)
    marked_picture.
Proof.
  repeat split.
  exists detect_default_args.
  split; [apply (OutputFile.studio_parses _ detect_default); reflexivity |].
  repeat split.
Qed.

Lemma decoder_bit_length_witness :
  lib_calls (detect studio [script_detect; detect_nine]) =
    [CallImread (PStr "b.png"); CallWatermarkDecoder "bytes" (PInt 72);
     CallDecode marked_picture "dwtDctSvd"] /\
  CallWatermarkDecoder "bytes" (PInt 128)
    ∈ lib_calls (detect studio [script_detect; detect_default]).
Proof.
  split.
  - exact (proj1 (decoder_bit_length studio _ _ 9 _ nine_detect_loads)).
  - exact (proj2 (proj2 (decoder_bit_length studio _ _ 16 _ default_detect_loads))
             eq_refl).
Defined.

(** The calls of an embed run up to the embedding. *)
Lemma calls_up_to_encode E argv rq img bs :
  embed_loads E argv rq img ->
  bytes_fromhex (payload_hex rq) = inr bs ->
  take 3 (lib_calls (embed E argv)) =
    [CallImread (input_path rq); CallSetWatermark "bytes" bs;
     CallEncode img "dwtDctSvd"].
Proof.
  intros ((args & (arg & Harg & Hjson) & Hip & Hop & Hph & Hq) & (Hcv & Hwm) & Himg)
         Hhex.
  EmbedFailures.open_request rq. run_script; reflexivity.
Qed.

(** C5: when [payload_hex] is a valid hex string [s], the bytes given to
    the watermark encoder are the hex-decoding of [s]: one byte for each
    pair of digits, none dropped (encoding them again gives [s] in lower
    case), and the same bytes for every spelling of [s] in upper-case or
    lower-case digits. *)
Theorem payload_is_hex_decoding E argv rq img s :
  embed_loads E argv rq img ->
  payload_hex rq = PStr s ->
  valid_hex s ->
  exists bs,
    hex_decode s = Some bs /\
    take 3 (lib_calls (embed E argv)) =
      [CallImread (input_path rq); CallSetWatermark "bytes" bs;
       CallEncode img "dwtDctSvd"] /\
    String.length s = 2 * length bs /\
    hex bs = lower s /\
    forall s', lower s' = lower s -> bytes_fromhex (PStr s') = inr bs.
Proof.
  intros Hload Hpayload [bs Hbs]. exists bs.
  assert (forall s', lower s' = lower s -> bytes_fromhex (PStr s') = inr bs) as Hcase.
  { intros s' Hs'. unfold bytes_fromhex.
    rewrite (Hex.fromhex_valid s' bs); [reflexivity |].
    rewrite (Hex.hex_decode_case s s' Hs'). exact Hbs. }
  split; [exact Hbs |]. split; [| split; [| split]].
  - apply calls_up_to_encode; [exact Hload |].
    rewrite Hpayload. apply Hcase. reflexivity.
  - apply Hex.decode_length. exact Hbs.
  - apply Hex.hex_of_decode. exact Hbs.
  - exact Hcase.
Qed.

Lemma jpg_embed_loads :
  embed_loads studio [script_embed; embed_jpg]
    (EmbedRequest (PStr "a.png") (PStr "OUT.JPG") (PStr "48656C6C6F21202020") (PInt 80))
    picture.
Proof. apply OutputFile.jpg_reaches_write. Qed.

Lemma payload_is_hex_decoding_witness :
  exists bs,
    hex_decode "48656C6C6F21202020" = Some bs /\
    take 3 (lib_calls (embed studio [script_embed; embed_jpg])) =
      [CallImread (PStr "a.png"); CallSetWatermark "bytes" bs;
       CallEncode picture "dwtDctSvd"] /\
    String.length "48656C6C6F21202020" = 2 * length bs /\
    hex bs = lower "48656C6C6F21202020" /\
    forall s', lower s' = lower "48656C6C6F21202020" ->
               bytes_fromhex (PStr s') = inr bs.
Proof.
  apply (payload_is_hex_decoding studio _ _ _ _ jpg_embed_loads eq_refl).
  exists hello. reflexivity.
Defined.



End Payload.

(* ===================================================================== *)
(** * Arguments that are rejected before any library call *)
(* ===================================================================== *)

Module ArgumentErrors.
Import Py Proc Contract Scenario Workshop.

Abbreviation embed := EmbedWatermark.embed_watermark.
Abbreviation detect := DetectWatermark.detect_watermark.

Lemma workshop_parses argv arg args :
  argv !! 1 = Some arg -> loads_more arg = inr args -> parses workshop argv args.
Proof. intros H1 H2. exists arg. split; [exact H1 | exact H2]. Qed.

(** Only a [dict] can be subscripted with a string. *)
Lemma getitem_not_dict args key :
  (forall d, args <> PDict d) ->
  exists e, getitem args key = inl e /\ exc_class e = "TypeError".
Proof.
  intros Hnot. destruct args; try (eexists; split; reflexivity).
  destruct (Hnot d eq_refl).
Qed.

(** X1: an argument that is well-formed JSON but not an object (a list, a
    string, a number, [true], [null]) makes both scripts print the failure
    object with the text of the [TypeError] raised by [args["input_path"]]
    and exit with code 1, before any library is called. *)
Theorem non_object_argument_rejected E argv args :
  parses E argv args ->
  (forall d, args <> PDict d) ->
  exists e,
    getitem args "input_path" = inl e /\ exc_class e = "TypeError" /\
    embed E argv = Result (Exited 1) [error_object (exc_str e)] [] /\
    detect E argv = Result (Exited 1) [error_object (exc_str e)] [].
Proof.
  intros (arg & Harg & Hjson) Hnot.
  destruct (getitem_not_dict args "input_path" Hnot) as (e & Hget & Hclass).
  exists e. split; [exact Hget |]. split; [exact Hclass |].
  split; run_script; reflexivity.
Qed.

Lemma non_object_argument_rejected_witness :
  exists e,
    getitem json_list_value "input_path" = inl e /\ exc_class e = "TypeError" /\
    embed workshop [script_embed; json_list] =
      Result (Exited 1) [error_object (exc_str e)] [] /\
    detect workshop [script_detect; json_list] =
      Result (Exited 1) [error_object (exc_str e)] [].
Proof.
  apply (non_object_argument_rejected workshop [script_embed; json_list]
           json_list_value).
  - apply (workshop_parses _ json_list); reflexivity.
  - intros d H. discriminate H.
Defined.

(** X2: the required fields are looked up in the order [input_path],
    [output_path], [payload_hex]; the first one the object lacks is named
    in the failure message (the text of the [KeyError]), the run exits with
    code 1, and nothing is imported, read or written, whatever the other
    fields and the libraries are. *)
Theorem first_missing_field_named E argv d :
  parses E argv (PDict d) ->
  (d !! "input_path" = None ->
     embed E argv = Result (Exited 1) [error_object "'input_path'"] [] /\
     detect E argv = Result (Exited 1) [error_object "'input_path'"] []) /\
  (is_Some (d !! "input_path") -> d !! "output_path" = None ->
     embed E argv = Result (Exited 1) [error_object "'output_path'"] []) /\
  (is_Some (d !! "input_path") -> is_Some (d !! "output_path") ->
   d !! "payload_hex" = None ->
     embed E argv = Result (Exited 1) [error_object "'payload_hex'"] []).
Proof.
  intros (arg & Harg & Hjson).
  split; [| split].
  - intros Hin.
    assert (getitem (PDict d) "input_path"
            = inl (Exn "KeyError" "'input_path'")) as Hget
      by (unfold getitem; rewrite Hin; reflexivity).
    split; run_script; reflexivity.
  - intros [x Hin] Hout.
    assert (getitem (PDict d) "input_path" = inr x) as Hget1
      by (unfold getitem; rewrite Hin; reflexivity).
    assert (getitem (PDict d) "output_path"
            = inl (Exn "KeyError" "'output_path'")) as Hget2
      by (unfold getitem; rewrite Hout; reflexivity).
    run_script; reflexivity.
  - intros [x Hin] [y Hout] Hpay.
    assert (getitem (PDict d) "input_path" = inr x) as Hget1
      by (unfold getitem; rewrite Hin; reflexivity).
    assert (getitem (PDict d) "output_path" = inr y) as Hget2
      by (unfold getitem; rewrite Hout; reflexivity).
    assert (getitem (PDict d) "payload_hex"
            = inl (Exn "KeyError" "'payload_hex'")) as Hget3
      by (unfold getitem; rewrite Hpay; reflexivity).
    run_script; reflexivity.
Qed.

Lemma first_missing_field_named_witness :
  embed workshop [script_embed; embed_no_output] =
    Result (Exited 1) [error_object "'output_path'"] [] /\
  embed workshop [script_embed; detect_default] =
    Result (Exited 1) [error_object "'output_path'"] [].
Proof.
  split.
  - refine (proj1 (proj2 (first_missing_field_named workshop
                            [script_embed; embed_no_output]
                            (list_to_map embed_no_output_fields) _)) _ _).
    + apply (workshop_parses _ embed_no_output); reflexivity.
    + eexists; reflexivity.
    + reflexivity.
  - refine (proj1 (proj2 (first_missing_field_named workshop
                            [script_embed; detect_default]
                            (list_to_map [("input_path", PStr "b.png")]) _)) _ _).
    + apply (workshop_parses _ detect_default); reflexivity.
    + eexists; reflexivity.
    + reflexivity.
Defined.

(** X3: when [json.loads] raises on the argument, both scripts print the
    failure object carrying the text of that exception and exit with code
    1; nothing is imported, read or written. *)
Theorem parser_error_text_reported E argv arg e :
  argv !! 1 = Some arg ->
  json_loads E arg = inl e ->
  embed E argv = Result (Exited 1) [error_object (exc_str e)] [] /\
  detect E argv = Result (Exited 1) [error_object (exc_str e)] [].
Proof. intros Harg Hjson. split; run_script; reflexivity. Qed.

Lemma parser_error_text_reported_witness :
  embed workshop [script_embed; "{"] =
    Result (Exited 1)
      [error_object "Expecting value: line 1 column 1 (char 0)"] [] /\
  detect workshop [script_detect; "{"] =
    Result (Exited 1)
      [error_object "Expecting value: line 1 column 1 (char 0)"] [].
Proof.
  split.
  - exact (proj1 (parser_error_text_reported workshop [script_embed; "{"] "{"
                    _ eq_refl eq_refl)).
  - exact (proj2 (parser_error_text_reported workshop [script_detect; "{"] "{"
                    _ eq_refl eq_refl)).
Defined.

(** X4: the libraries are imported after the fields were read and before
    the image is loaded.  When an import raises (a machine without OpenCV
    or without imwatermark), a run whose argument has the required fields
    prints the failure object with the text of that exception and exits
    with code 1 without reading or writing any file. *)
Theorem import_error_reported E argv e :
  import_module E "cv2" = Some e \/
  (import_module E "cv2" = None /\ import_module E "imwatermark" = Some e) ->
  (forall rq, embed_parses E argv rq ->
     embed E argv = Result (Exited 1) [error_object (exc_str e)] []) /\
  (forall path len, detect_parses E argv path len ->
     detect E argv = Result (Exited 1) [error_object (exc_str e)] []).
Proof.
  intros Himp. split.
  - intros rq (args & (arg & Harg & Hjson) & Hip & Hop & Hph & Hq).
    EmbedFailures.open_request rq.
    destruct Himp as [Hcv | [Hcv Hwm]]; run_script; reflexivity.
  - intros path len (args & (arg & Harg & Hjson) & Hip & Hlen).
    destruct Himp as [Hcv | [Hcv Hwm]]; run_script; reflexivity.
Qed.

Lemma bare_embed_parses :
  embed_parses bare [script_embed; embed_png]
    (EmbedRequest (PStr "a.png") (PStr "b.png") (PStr hello_hex) (PInt 92)).
Proof.
  exists embed_png_args.
  split; [exists embed_png; split; reflexivity | repeat split].
Qed.

Lemma import_error_reported_witness :
  embed bare [script_embed; embed_png] =
    Result (Exited 1) [error_object "No module named 'cv2'"] [].
Proof.
  exact (proj1 (import_error_reported bare [script_embed; embed_png] _
                  (or_introl eq_refl)) _ bare_embed_parses).
Defined.

End ArgumentErrors.

(* ===================================================================== *)
(** * The library calls of a run *)
(* ===================================================================== *)

Module LibraryCalls.
Import Py Proc Contract Scenario Workshop.

Abbreviation embed := EmbedWatermark.embed_watermark.
Abbreviation detect := DetectWatermark.detect_watermark.

(** X5: when [cv2.imwrite] raises (for instance on an extension it has no
    writer for), the embedder prints the failure object with the text of
    that exception and exits with code 1; the write was the fourth and last
    library call. *)
Theorem write_exception_text_reported E argv rq img bs wm path params e :
  embed_reaches_write E argv rq img bs wm path ->
  profile_of path (jpeg_quality rq) params ->
  imwrite E (PStr path) wm params = inl e ->
  embed E argv =
    Result (Exited 1) [error_object (exc_str e)]
      [CallImread (input_path rq); CallSetWatermark "bytes" bs;
       CallEncode img "dwtDctSvd"; CallImwrite (PStr path) wm params].
Proof.
  intros Hreach Hprof Hwrite.
  apply EmbedRun.profile_of_unique in Hprof. subst params.
  rewrite (EmbedRun.run_at_write _ _ _ _ _ _ _ Hreach). cbn zeta.
  rewrite Hwrite. reflexivity.
Qed.

Lemma bin_reaches_write :
  embed_reaches_write workshop [script_embed; embed_bin]
    (EmbedRequest (PStr "a.png") (PStr "out.bin") (PStr hello_hex) (PInt 92))
    picture hello marked_picture "out.bin".
Proof.
  repeat split.
  exists embed_bin_args.
  split; [apply (ArgumentErrors.workshop_parses _ embed_bin); reflexivity |].
  repeat split.
Qed.

Lemma write_exception_text_reported_witness :
  embed workshop [script_embed; embed_bin] =
    Result (Exited 1)
      [error_object "could not find a writer for the specified extension"]
      [CallImread (PStr "a.png"); CallSetWatermark "bytes" hello;
       CallEncode picture "dwtDctSvd";
       CallImwrite (PStr "out.bin") marked_picture []].
Proof.
  exact (write_exception_text_reported workshop _ _ _ _ _ _ []
           (Exn "error" "could not find a writer for the specified extension")
           bin_reaches_write
           (EmbedRun.profile_of_encoding_params "out.bin" (PInt 92))
           eq_refl).
Defined.

(** X6: an output path that is not a string is found out only at line 33,
    after the image was read and the watermark embedded: the run prints the
    failure object with the text of the [AttributeError], exits with code
    1, and writes nothing. *)
Theorem output_path_checked_after_embedding E argv rq img bs wm :
  embed_loads E argv rq img ->
  bytes_fromhex (payload_hex rq) = inr bs ->
  encode E "bytes" bs img "dwtDctSvd" = inr wm ->
  (forall s, output_path rq <> PStr s) ->
  exists e,
    method_lower (output_path rq) = inl e /\ exc_class e = "AttributeError" /\
    embed E argv =
      Result (Exited 1) [error_object (exc_str e)]
        [CallImread (input_path rq); CallSetWatermark "bytes" bs;
         CallEncode img "dwtDctSvd"].
Proof.
  intros ((args & (arg & Harg & Hjson) & Hip & Hop & Hph & Hq) & (Hcv & Hwm) & Himg)
         Hhex Henc Hnot.
  destruct rq as [ip op ph q];
    cbn [input_path output_path payload_hex jpeg_quality] in *.
  assert (exists e, method_lower op = inl e /\
                    exc_class e = "AttributeError") as (e & Hlow & Hclass).
  { destruct op; try (eexists; split; reflexivity).
    destruct (Hnot s eq_refl). }
  exists e. split; [exact Hlow |]. split; [exact Hclass |].
  run_script; reflexivity.
Qed.

Lemma numeric_output_loads :
  embed_loads workshop [script_embed; embed_numeric_output]
    (EmbedRequest (PStr "a.png") (PInt 5) (PStr hello_hex) (PInt 92)) picture.
Proof.
  repeat split.
  exists embed_numeric_output_args.
  split; [apply (ArgumentErrors.workshop_parses _ embed_numeric_output); reflexivity |].
  repeat split.
Qed.

Lemma output_path_checked_after_embedding_witness :
  exists e,
    method_lower (PInt 5) = inl e /\ exc_class e = "AttributeError" /\
    embed workshop [script_embed; embed_numeric_output] =
      Result (Exited 1) [error_object (exc_str e)]
        [CallImread (PStr "a.png"); CallSetWatermark "bytes" hello;
         CallEncode picture "dwtDctSvd"].
Proof.
  apply (output_path_checked_after_embedding workshop _ _ _ _ marked_picture
           numeric_output_loads).
  - reflexivity.
  - reflexivity.
  - intros s H. discriminate H.
Defined.

(** X7: the library calls of an embed run, whatever the input: none; or the
    image load alone; or the load of an image [img], the payload and the
    embedding into [img], always in the modes ['bytes'] and ['dwtDctSvd'];
    or these three followed by one write of the embedder's result.  The
    embedder never builds a decoder, never reads a second file and asks
    for at most one file to be written. *)
Theorem embed_calls_shape E argv :
  length (written_paths (lib_calls (embed E argv))) <= 1 /\
  (lib_calls (embed E argv) = [] \/
   (exists p, lib_calls (embed E argv) = [CallImread p]) \/
   (exists p img bs,
      imread E p = inr (Some img) /\
      (lib_calls (embed E argv) =
         [CallImread p; CallSetWatermark "bytes" bs; CallEncode img "dwtDctSvd"] \/
       exists out wm params,
         encode E "bytes" bs img "dwtDctSvd" = inr wm /\
         lib_calls (embed E argv) =
           [CallImread p; CallSetWatermark "bytes" bs; CallEncode img "dwtDctSvd";
            CallImwrite out wm params]))).
Proof. run_script; (split; [simpl; lia | eauto 12]). Qed.

(** X8: the library calls of a detect run, whatever the input: none; or
    the image load alone; or the load of an image [img], one decoder in
    mode ['bytes'] and one decoding of [img] in mode ['dwtDctSvd'].  The
    detector never writes a file and never embeds. *)
Theorem detect_calls_shape E argv :
  written_paths (lib_calls (detect E argv)) = [] /\
  (lib_calls (detect E argv) = [] \/
   (exists p, lib_calls (detect E argv) = [CallImread p]) \/
   (exists p img bits,
      imread E p = inr (Some img) /\
      lib_calls (detect E argv) =
        [CallImread p; CallWatermarkDecoder "bytes" bits;
         CallDecode img "dwtDctSvd"])).
Proof. run_script; (split; [reflexivity | eauto 8]). Qed.

End LibraryCalls.

(* ===================================================================== *)
(** * The fields of the argument object *)
(* ===================================================================== *)

Module Fields.
Import Py Proc Contract Scenario Workshop.

Abbreviation embed := EmbedWatermark.embed_watermark.
Abbreviation detect := DetectWatermark.detect_watermark.

(** X9: a [jpeg_quality] present in the argument object is passed to
    [cv2.imwrite] as it is, whatever JSON value it is: the default 92
    replaces an absent key only, not [null], and no range is enforced. *)
Theorem explicit_quality_passed_unchanged E argv d v :
  parses E argv (PDict d) ->
  d !! "jpeg_quality" = Some v ->
  (forall rq, embed_parses E argv rq -> jpeg_quality rq = v) /\
  (forall path img flag v',
     CallImwrite path img [(flag, v')] ∈ lib_calls (embed E argv) ->
     flag <> IMWRITE_PNG_COMPRESSION -> v' = v).
Proof.
  intros (arg & Harg & Hjson) Hsome.
  assert (get (PDict d) "jpeg_quality" (PInt 92) = inr v) as Hq
    by (unfold get; rewrite Hsome; reflexivity).
  split.
  - intros rq (args & (arg' & Harg' & Hjson') & _ & _ & _ & Hq').
    assert (args = PDict d) as -> by congruence. congruence.
  - intros path img flag v'. run_script; intros Hin Hflag;
      repeat (apply elem_of_cons in Hin as [Hin | Hin]; [simplify_eq |]);
      try (apply elem_of_nil in Hin; destruct Hin);
      rewrite ?Hsome; first [reflexivity | congruence].
Qed.

Lemma explicit_quality_passed_unchanged_witness :
  CallImwrite (PStr "c.jpg") marked_picture [(IMWRITE_JPEG_QUALITY, PNone)]
    ∈ lib_calls (embed workshop [script_embed; embed_null_quality]) /\
  (forall path img flag v',
     CallImwrite path img [(flag, v')]
       ∈ lib_calls (embed workshop [script_embed; embed_null_quality]) ->
     flag <> IMWRITE_PNG_COMPRESSION -> v' = PNone).
Proof.
  split.
  - vm_compute. do 3 apply list_elem_of_further. apply list_elem_of_here.
  - refine (proj2 (explicit_quality_passed_unchanged workshop
                     [script_embed; embed_null_quality]
                     (list_to_map embed_null_quality_fields) PNone _ _)).
    + apply (ArgumentErrors.workshop_parses _ embed_null_quality); reflexivity.
    + reflexivity.
Defined.

(** X10: a [payload_length] that cannot be multiplied by 8 ([null] or an
    object) makes the detector fail after it has loaded the image: it
    prints the failure object with the text of the [TypeError], exits with
    code 1 and builds no decoder.  Every other JSON value is multiplied
    (a number arithmetically, a string or a list by repetition) and handed
    to the decoder. *)
Theorem payload_length_multiplied_or_rejected E argv path len img :
  detect_loads E argv path len img ->
  ((len = PNone \/ exists d, len = PDict d) ->
     exists e,
       mul_8 len = inl e /\ exc_class e = "TypeError" /\
       detect E argv = Result (Exited 1) [error_object (exc_str e)] [CallImread path]) /\
  (len <> PNone -> (forall d, len <> PDict d) ->
     exists bits,
       mul_8 len = inr bits /\
       lib_calls (detect E argv) =
         [CallImread path; CallWatermarkDecoder "bytes" bits;
          CallDecode img "dwtDctSvd"]).
Proof.
  intros Hload. rewrite (DetectRun.run_loaded _ _ _ _ _ Hload). split.
  - intros [-> | [d ->]]; eexists; (split; [reflexivity |]);
      (split; [reflexivity |]); reflexivity.
  - intros Hnone Hdict.
    destruct len; try (destruct (Hnone eq_refl)); try (destruct (Hdict _ eq_refl));
      unfold mul_8; eexists; (split; [reflexivity |]); cbn beta iota zeta;
      match goal with |- context [decode ?E ?t ?b ?i ?m] =>
        destruct (decode E t b i m) end; reflexivity.
Qed.

Lemma null_length_loads :
  detect_loads workshop [script_detect; detect_null_length] (PStr "b.png") PNone
    marked_picture.
Proof.
  repeat split.
  exists detect_null_length_args.
  split; [apply (ArgumentErrors.workshop_parses _ detect_null_length); reflexivity |].
  repeat split.
Qed.

Lemma payload_length_multiplied_or_rejected_witness :
  exists e,
    mul_8 PNone = inl e /\ exc_class e = "TypeError" /\
    detect workshop [script_detect; detect_null_length] =
      Result (Exited 1) [error_object (exc_str e)] [CallImread (PStr "b.png")].
Proof.
  exact (proj1 (payload_length_multiplied_or_rejected workshop _ _ _ _
                  null_length_loads) (or_introl eq_refl)).
Defined.

(** X11: only the named fields are read.  Two argument objects that agree
    on [input_path], [output_path], [payload_hex] and [jpeg_quality] give
    the same embed run, and two that agree on [input_path] and
    [payload_length] give the same detect run: every other field is
    ignored. *)
Theorem other_fields_ignored E (d d' : gmap string pyval) :
  (d !! "input_path" = d' !! "input_path" ->
   d !! "output_path" = d' !! "output_path" ->
   d !! "payload_hex" = d' !! "payload_hex" ->
   d !! "jpeg_quality" = d' !! "jpeg_quality" ->
     EmbedWatermark.pipeline E (PDict d) = EmbedWatermark.pipeline E (PDict d')) /\
  (d !! "input_path" = d' !! "input_path" ->
   d !! "payload_length" = d' !! "payload_length" ->
     DetectWatermark.pipeline E (PDict d) = DetectWatermark.pipeline E (PDict d')).
Proof.
  split.
  - intros H1 H2 H3 H4. unfold EmbedWatermark.pipeline, getitem, get.
    rewrite H1, H2, H3, H4. reflexivity.
  - intros H1 H2. unfold DetectWatermark.pipeline, getitem, get.
    rewrite H1, H2. reflexivity.
Qed.

Lemma other_fields_ignored_witness :
  DetectWatermark.pipeline workshop
    (dict [("input_path", PStr "b.png"); ("output_path", PStr "x.png")]) =
  DetectWatermark.pipeline workshop (dict [("input_path", PStr "b.png")]).
Proof.
  apply (proj2 (other_fields_ignored workshop
                  (list_to_map [("input_path", PStr "b.png");
                                ("output_path", PStr "x.png")])
                  (list_to_map [("input_path", PStr "b.png")])));
    reflexivity.
Defined.

End Fields.

(* ===================================================================== *)
(** * The hex text of a payload *)
(* ===================================================================== *)

Module HexText.
Import Py Proc Contract Scenario Workshop.

Abbreviation embed := EmbedWatermark.embed_watermark.
Abbreviation detect := DetectWatermark.detect_watermark.

Lemma hex_cons b r :
  hex (b :: r) =
  String (hexdigit (N.land (N.shiftr (Byte.to_N b) 4) 15))
    (String (hexdigit (N.land (Byte.to_N b) 15)) (hex r)).
Proof. reflexivity. Qed.

(** The two digits [bytes.hex] writes for a byte read back as that byte. *)
Lemma hex_byte b :
  hex_digit_value (hexdigit (N.land (N.shiftr (Byte.to_N b) 4) 15))
    = Some (N.land (N.shiftr (Byte.to_N b) 4) 15) /\
  hex_digit_value (hexdigit (N.land (Byte.to_N b) 15))
    = Some (N.land (Byte.to_N b) 15) /\
  Byte.of_N (16 * N.land (N.shiftr (Byte.to_N b) 4) 15 + N.land (Byte.to_N b) 15)
    = Some b.
Proof. destruct b; vm_compute; repeat split. Qed.

Lemma hex_decode_hex bs : hex_decode (hex bs) = Some bs.
Proof.
  induction bs as [| b r IH]; [reflexivity |].
  rewrite hex_cons. cbn [hex_decode].
  destruct (hex_byte b) as (-> & -> & ->). rewrite IH. reflexivity.
Qed.

(** X12: the hex text the detector prints is text the embedder accepts:
    for every byte sequence, [bytes.fromhex] of its [hex()] is the sequence
    itself; the text has two digits per byte and is in lower case. *)
Theorem hex_text_decodes_back (bs : bytes) :
  bytes_fromhex (PStr (hex bs)) = inr bs /\
  String.length (hex bs) = 2 * length bs /\
  lower (hex bs) = hex bs.
Proof.
  pose proof (hex_decode_hex bs) as Hdec. split; [| split].
  - unfold bytes_fromhex. rewrite (Hex.fromhex_valid _ _ Hdec). reflexivity.
  - exact (Hex.decode_length _ _ Hdec).
  - symmetry. exact (Hex.hex_of_decode _ _ Hdec).
Qed.

(** X13: what a successful detect run prints, given to the embedder as
    [payload_hex], makes the embedder hand the encoder exactly the bytes
    the decoder had returned. *)
Theorem detected_payload_feeds_embedder E argv payload E' argv' rq img :
  detect_succeeds E argv payload ->
  embed_loads E' argv' rq img ->
  payload_hex rq = PStr (hex payload) ->
  printed (detect E argv) = [ok_payload_object (hex payload)] /\
  take 3 (lib_calls (embed E' argv')) =
    [CallImread (input_path rq); CallSetWatermark "bytes" payload;
     CallEncode img "dwtDctSvd"].
Proof.
  intros (path & len & src & bits & Hload & Hmul & Hdec) Hloads Hpayload. split.
  - rewrite (DetectRun.run_loaded _ _ _ _ _ Hload), Hmul. cbn beta iota zeta.
    rewrite Hdec. reflexivity.
  - apply Payload.calls_up_to_encode; [exact Hloads |].
    rewrite Hpayload. unfold bytes_fromhex.
    rewrite (Hex.fromhex_valid _ _ (hex_decode_hex payload)). reflexivity.
Qed.

Lemma detected_payload_feeds_embedder_witness :
  printed (detect studio [script_detect; detect_nine]) =
    [ok_payload_object (hex hello)] /\
  take 3 (lib_calls (embed studio [script_embed; embed_png])) =
    [CallImread (PStr "a.png"); CallSetWatermark "bytes" hello;
     CallEncode picture "dwtDctSvd"].
Proof.
  refine (detected_payload_feeds_embedder studio _ hello studio _
            (EmbedRequest (PStr "a.png") (PStr "b.png") (PStr hello_hex) (PInt 92))
            picture Reporting.nine_detect_succeeds _ eq_refl).
  repeat split.
  exists embed_png_args.
  split; [apply (OutputFile.studio_parses _ embed_png); reflexivity |].
  repeat split.
Defined.

(** A hexadecimal digit is not white space. *)
Lemma digit_not_space c : (digit_value c <? 16)%N = true -> is_space c = false.
Proof.
  destruct c as [[] [] [] [] [] [] [] []]; vm_compute; intros H;
    first [reflexivity | discriminate H].
Qed.

Lemma odd_digits_rejected_from s pos :
  all_hex_digits s = true -> Nat.odd (String.length s) = true ->
  exists i, fromhex_from pos s = inl i.
Proof.
  revert pos. induction s as [| c | c1 c2 r IH] using Hex.string_pair_ind;
    intros pos Hall Hodd.
  - discriminate Hodd.
  - cbn [all_hex_digits] in Hall. apply andb_prop in Hall as [Hc _].
    cbn [fromhex_from]. rewrite (digit_not_space c Hc).
    rewrite N.leb_antisym, Hc. cbn [negb]. eauto.
  - cbn [all_hex_digits] in Hall.
    apply andb_prop in Hall as [Hc1 Hall]. apply andb_prop in Hall as [Hc2 Hall].
    cbn [fromhex_from]. rewrite (digit_not_space c1 Hc1).
    rewrite (N.leb_antisym (digit_value c1)), Hc1.
    rewrite (N.leb_antisym (digit_value c2)), Hc2. cbn [negb].
    destruct (IH (S (S pos)) Hall Hodd) as [i ->]. eauto.
Qed.

(** X14: a payload of hexadecimal digits in odd number is rejected, not
    padded or cut: the embedder, having loaded the image, prints the
    failure object with the text of the [ValueError], exits with code 1,
    and neither embeds nor writes. *)
Theorem odd_digits_rejected E argv rq img s :
  embed_loads E argv rq img ->
  payload_hex rq = PStr s ->
  all_hex_digits s = true ->
  Nat.odd (String.length s) = true ->
  exists e,
    bytes_fromhex (PStr s) = inl e /\ exc_class e = "ValueError" /\
    embed E argv =
      Result (Exited 1) [error_object (exc_str e)] [CallImread (input_path rq)].
Proof.
  intros ((args & (arg & Harg & Hjson) & Hip & Hop & Hph & Hq) & (Hcv & Hwm) & Himg)
         Hpayload Hall Hodd.
  assert (exists e, bytes_fromhex (PStr s) = inl e /\ exc_class e = "ValueError")
    as (e & Hhex & Hclass).
  { unfold bytes_fromhex, fromhex.
    destruct (first_non_ascii 0 s); [eexists; split; reflexivity |].
    destruct (odd_digits_rejected_from s 0 Hall Hodd) as [i ->].
    eexists; split; reflexivity. }
  exists e. split; [exact Hhex |]. split; [exact Hclass |].
  destruct rq as [ip op ph q];
    cbn [input_path output_path payload_hex jpeg_quality] in *.
  subst ph. run_script; reflexivity.
Qed.

Lemma odd_loads :
  embed_loads workshop [script_embed; embed_odd]
    (EmbedRequest (PStr "a.png") (PStr "b.png") (PStr "abc") (PInt 92)) picture.
Proof.
  repeat split.
  exists embed_odd_args.
  split; [apply (ArgumentErrors.workshop_parses _ embed_odd); reflexivity |].
  repeat split.
Qed.

Lemma odd_digits_rejected_witness :
  exists e,
    bytes_fromhex (PStr "abc") = inl e /\ exc_class e = "ValueError" /\
    embed workshop [script_embed; embed_odd] =
      Result (Exited 1) [error_object (exc_str e)] [CallImread (PStr "a.png")].
Proof.
  exact (odd_digits_rejected workshop _ _ _ "abc" odd_loads eq_refl eq_refl eq_refl).
Defined.

Lemma space_is_ascii c : is_space c = true -> (128 <=? N_of_ascii c)%N = false.
Proof.
  destruct c as [[] [] [] [] [] [] [] []]; vm_compute; intros H;
    first [reflexivity | discriminate H].
Qed.

Lemma spaced_ascii s1 c s2 bs1 bs2 pos :
  hex_decode s1 = Some bs1 -> hex_decode s2 = Some bs2 -> is_space c = true ->
  first_non_ascii pos (s1 +:+ String c s2) = None.
Proof.
  revert bs1 pos. induction s1 as [| c1 | c1 c2 r IH] using Hex.string_pair_ind;
    intros bs1 pos H1 H2 Hc; cbn [hex_decode] in H1; try discriminate H1.
  - change (EmptyString +:+ String c s2) with (String c s2).
    cbn [first_non_ascii]. rewrite (space_is_ascii c Hc).
    exact (Hex.valid_hex_ascii s2 bs2 (S pos) H2).
  - destruct (hex_digit_value c1) as [hi|] eqn:D1; [| discriminate].
    destruct (hex_digit_value c2) as [lo|] eqn:D2; [| discriminate].
    destruct (hex_decode r) as [bs'|] eqn:Hr; [| discriminate].
    apply Hex.hex_char in D1 as (_ & _ & _ & A1 & _).
    apply Hex.hex_char in D2 as (_ & _ & _ & A2 & _).
    apply N.leb_gt in A1, A2.
    change (String c1 (String c2 r) +:+ String c s2)
      with (String c1 (String c2 (r +:+ String c s2))).
    cbn [first_non_ascii]. rewrite A1, A2. exact (IH bs' _ eq_refl H2 Hc).
Qed.

Lemma spaced_fromhex_from s1 c s2 bs1 bs2 pos :
  hex_decode s1 = Some bs1 -> hex_decode s2 = Some bs2 -> is_space c = true ->
  fromhex_from pos (s1 +:+ String c s2) = inr (bs1 ++ bs2).
Proof.
  revert bs1 pos. induction s1 as [| c1 | c1 c2 r IH] using Hex.string_pair_ind;
    intros bs1 pos H1 H2 Hc; cbn [hex_decode] in H1; try discriminate H1.
  - injection H1 as <-.
    change (EmptyString +:+ String c s2) with (String c s2).
    cbn [fromhex_from]. rewrite Hc.
    exact (Hex.valid_hex_fromhex_from s2 bs2 (S pos) H2).
  - destruct (hex_digit_value c1) as [hi|] eqn:D1; [| discriminate].
    destruct (hex_digit_value c2) as [lo|] eqn:D2; [| discriminate].
    destruct (hex_decode r) as [bs'|] eqn:Hr; [| discriminate].
    destruct (Byte.of_N (16 * hi + lo)) as [b|] eqn:Hb; [| discriminate].
    injection H1 as <-.
    apply Hex.hex_char in D1 as (V1 & L1 & S1 & _ & _).
    apply Hex.hex_char in D2 as (V2 & L2 & _ & _ & _).
    destruct (Hex.nibbles_byte hi lo b L1 L2 Hb) as (-> & _ & _).
    change (String c1 (String c2 r) +:+ String c s2)
      with (String c1 (String c2 (r +:+ String c s2))).
    cbn [fromhex_from]. rewrite S1, V1, V2.
    apply N.leb_gt in L1, L2. rewrite L1, L2.
    rewrite (IH bs' (S (S pos)) eq_refl H2 Hc). reflexivity.
Qed.

(** X15: white space between two bytes of the payload text is skipped: when
    [payload_hex] is a valid hex string, a white-space character and another
    valid hex string, the encoder is given the bytes of the first followed
    by the bytes of the second. *)
Theorem space_between_bytes_skipped E argv rq img s1 c s2 bs1 bs2 :
  embed_loads E argv rq img ->
  payload_hex rq = PStr (s1 +:+ String c s2) ->
  is_space c = true ->
  hex_decode s1 = Some bs1 -> hex_decode s2 = Some bs2 ->
  bytes_fromhex (payload_hex rq) = inr (bs1 ++ bs2) /\
  take 3 (lib_calls (embed E argv)) =
    [CallImread (input_path rq); CallSetWatermark "bytes" (bs1 ++ bs2);
     CallEncode img "dwtDctSvd"].
Proof.
  intros Hloads Hpayload Hc H1 H2.
  assert (bytes_fromhex (payload_hex rq) = inr (bs1 ++ bs2)) as Hhex.
  { rewrite Hpayload. unfold bytes_fromhex, fromhex.
    rewrite (spaced_ascii s1 c s2 bs1 bs2 0 H1 H2 Hc).
    rewrite (spaced_fromhex_from s1 c s2 bs1 bs2 0 H1 H2 Hc). reflexivity. }
  split; [exact Hhex |].
  apply Payload.calls_up_to_encode; assumption.
Qed.

Lemma spaced_loads :
  embed_loads workshop [script_embed; embed_spaced]
    (EmbedRequest (PStr "a.png") (PStr "b.png") (PStr "4865 6c6c6f") (PInt 92))
    picture.
Proof.
  repeat split.
  exists embed_spaced_args.
  split; [apply (ArgumentErrors.workshop_parses _ embed_spaced); reflexivity |].
  repeat split.
Qed.

Lemma space_between_bytes_skipped_witness :
  bytes_fromhex (PStr "4865 6c6c6f") = inr [x48; x65; x6c; x6c; x6f] /\
  take 3 (lib_calls (embed workshop [script_embed; embed_spaced])) =
    [CallImread (PStr "a.png");
     CallSetWatermark "bytes" [x48; x65; x6c; x6c; x6f];
     CallEncode picture "dwtDctSvd"].
Proof.
  exact (space_between_bytes_skipped workshop _ _ _ "4865" " "%char "6c6c6f"
           [x48; x65] [x6c; x6c; x6f] spaced_loads eq_refl eq_refl eq_refl eq_refl).
Defined.

End HexText.

(* ===================================================================== *)
(** * What exit code 0 means *)
(* ===================================================================== *)

Module ExitZero.
Import Py Proc Contract Scenario Workshop.

Abbreviation embed := EmbedWatermark.embed_watermark.
Abbreviation detect := DetectWatermark.detect_watermark.

Ltac name_write :=
  match goal with
  | H : method_lower ?p = inr _ |- _ =>
      destruct p; try discriminate H; unfold method_lower in H;
      injection H as <-
  end;
  eexists (EmbedRequest _ _ _ _), _, _, _, _, _;
  split;
    [ split;
        [ split; [eexists; split; [EmbedFailures.solve_parses
                                  | repeat split; eassumption]
                 | split; [split; eassumption | eassumption] ]
        | split; [eassumption | split; [eassumption | reflexivity]] ]
    | split;
        [ unfold encoding_params;
          repeat match goal with
                 | H : endswith_any _ _ = _ |- _ => rewrite H; clear H
                 | H : endswith _ _ = _ |- _ => rewrite H; clear H
                 end;
          eassumption
        | reflexivity ] ].

(** X16: an embed run exits with code 0 only if every step before the
    write returned and [cv2.imwrite] returned (without raising); the run
    then asked for exactly one file, at the output path of the argument,
    holding what the encoder returned. *)
Theorem exit_zero_means_write_called E argv :
  status (embed E argv) = Exited 0 ->
  exists rq img bs wm path written,
    embed_reaches_write E argv rq img bs wm path /\
    imwrite E (PStr path) wm (encoding_params path (jpeg_quality rq))
      = inr written /\
    written_paths (lib_calls (embed E argv)) = [PStr path].
Proof.
  run_script; intros Hexit; try discriminate Hexit; name_write.
Qed.

Lemma exit_zero_means_write_called_witness :
  exists rq img bs wm path written,
    embed_reaches_write studio [script_embed; embed_png] rq img bs wm path /\
    imwrite studio (PStr path) wm (encoding_params path (jpeg_quality rq))
      = inr written /\
    written_paths (lib_calls (embed studio [script_embed; embed_png]))
      = [PStr path].
Proof.
  exact (exit_zero_means_write_called studio [script_embed; embed_png] eq_refl).
Defined.

(** X17: a detect run exits with code 0 only if every step returned, and
    what it prints is then the hex text of the bytes the decoder returned. *)
Theorem exit_zero_means_decoded E argv :
  status (detect E argv) = Exited 0 ->
  exists payload,
    detect_succeeds E argv payload /\
    printed (detect E argv) = [ok_payload_object (hex payload)].
Proof.
  run_script; intros Hexit; try discriminate Hexit.
  eexists. split; [| reflexivity].
  eexists _, _, _, _.
  split; [DetectRun.solve_detect_loads | split; eassumption].
Qed.

Lemma exit_zero_means_decoded_witness :
  exists payload,
    detect_succeeds studio [script_detect; detect_nine] payload /\
    printed (detect studio [script_detect; detect_nine]) =
      [ok_payload_object (hex payload)].
Proof.
  exact (exit_zero_means_decoded studio [script_detect; detect_nine] eq_refl).
Defined.

End ExitZero.
